(** * Tracker callbacks of [dev/local/callback/tracker.py]

    A shallow embedding of the five callbacks of the tracker module
    ([TerminateOnNaNCallback], [TrackerCallback], [EarlyStoppingCallback],
    [SaveModelCallback], [ReduceLROnPlateau]) and the properties of their
    hooks.

    Python floats are IEEE 754 binary64 numbers: they are embedded as Rocq's
    primitive floats, whose operations are the very same ones.  Python's
    unbounded integers are [Z].  An attribute that a hook creates
    ([best], [new_best], [idx], [wait]) is an [option]: reading it before it
    was assigned raises [AttributeError]. *)

From Stdlib Require Import ZArith Floats DecimalString DecimalPos DecimalZ.
From stdpp Require Import gmap strings list.

Local Open Scope string_scope.
#[local] Set Warnings "-inexact-float".

(** ** The Python runtime pieces the module relies on *)

Module Py.

(** The exceptions a hook of this module can end with. *)
Inductive exn : Set :=
| AssertionError
| AttributeError (attr : string)
| IndexError
| KeyError (key : string)
| ZeroDivisionError
| FileNotFoundError
| ValueError
| CancelFitException.

(** A hook either returns, or raises: in both cases the objects it works on
    are left in some state, which is what [s] records. *)
Inductive outcome (S : Type) : Type :=
| Done (s : S)
| Raised (e : exn) (s : S).
Arguments Done {S} s.
Arguments Raised {S} e s.

Definition state_of {S} (o : outcome S) : S :=
  match o with Done s => s | Raised _ s => s end.

Definition raised {S} (o : outcome S) : option exn :=
  match o with Done _ => None | Raised e _ => Some e end.

(** [needle in hay] on strings: [needle] starts at some position of [hay]. *)
Fixpoint contains (needle hay : string) : bool :=
  String.prefix needle hay ||
  match hay with
  | EmptyString => false
  | String _ rest => contains needle rest
  end.

(** [x in l] on a list of strings. *)
Definition mem (x : string) (l : list string) : bool :=
  bool_decide (x ∈ l).

(** [l.index(x)]: the position of the first occurrence. *)
Fixpoint index (x : string) (l : list string) : option nat :=
  match l with
  | [] => None
  | y :: l' => if decide (y = x) then Some 0 else S <$> index x l'
  end.

(** [str(n)] for an integer, as an f-string renders it. *)
Definition str_int (n : Z) : string :=
  NilZero.string_of_int (Z.to_int n).

(** [x / y] on floats: Python raises where IEEE 754 would return an
    infinity or a NaN. *)
Definition truediv (x y : float) : option float :=
  if PrimFloat.eqb y 0 then None else Some (PrimFloat.div x y).

End Py.
Import Py.

(** ** Comparators *)

(** The comparator of a tracker is a Python callable.  [np.less] and
    [np.greater] are the two objects the module itself refers to; any other
    callable (such as [operator.lt] or a lambda) is [Other], carrying the
    function it computes.  The constructors are distinct objects: an [Other]
    is never the object [np.less], whatever it computes. *)
Inductive comparator : Type :=
| np_less
| np_greater
| Other (f : float -> float -> bool).

(** [comp == np.less]: callables compare by identity. *)
Definition is_np_less (c : comparator) : bool :=
  match c with np_less => true | _ => false end.

(** [comp(a, b)] *)
Definition call (c : comparator) (a b : float) : bool :=
  match c with
  | np_less => PrimFloat.ltb a b
  | np_greater => PrimFloat.ltb b a
  | Other f => f a b
  end.

Definition operator_lt : comparator := Other PrimFloat.ltb.

(** ** The learner, as the callbacks see it *)

(** The recorder: the names of the metric columns and one row of values per
    finished epoch. *)
Record Recorder : Type := mkRecorder {
  metric_names : list string;
  values : list (list float)
}.

(** One piece of a printed f-string: literal text (integers are rendered in
    place by [str_int]) or a float handed to the formatter. *)
Inductive piece : Type :=
| Lit (s : string)
| Flt (x : float).

Section Learner.

(** The type of model states (the parameters that [save] persists). *)
Context {Model : Type}.

(** What a callback reaches through [self.learn] (attribute look-ups such
    as [self.epoch], [self.loss], [self.opt] and [self.recorder] are
    delegated to the learner).  [files] is the content of the directory
    [learn.path/learn.model_dir], keyed by file name; [stdout] collects
    the printed lines, the latest last. *)
Record Learner : Type := mkLearner {
  recorder : Recorder;
  epoch : Z;
  loss : float;
  hypers : list (gmap string float);
  model : Model;
  files : gmap string Model;
  stdout : list (list piece)
}.

Definition set_epoch (n : Z) (l : Learner) : Learner :=
  mkLearner (recorder l) n (loss l) (hypers l) (model l) (files l) (stdout l).

Definition set_loss (x : float) (l : Learner) : Learner :=
  mkLearner (recorder l) (epoch l) x (hypers l) (model l) (files l) (stdout l).

(** The recorder appends the row of a finished epoch. *)
Definition record_row (row : list float) (l : Learner) : Learner :=
  mkLearner (mkRecorder (metric_names (recorder l)) (values (recorder l) ++ [row]))
            (epoch l) (loss l) (hypers l) (model l) (files l) (stdout l).

Definition set_hypers (hs : list (gmap string float)) (l : Learner) : Learner :=
  mkLearner (recorder l) (epoch l) (loss l) hs (model l) (files l) (stdout l).

Definition set_model (m : Model) (l : Learner) : Learner :=
  mkLearner (recorder l) (epoch l) (loss l) (hypers l) m (files l) (stdout l).

Definition set_files (fs : gmap string Model) (l : Learner) : Learner :=
  mkLearner (recorder l) (epoch l) (loss l) (hypers l) (model l) fs (stdout l).

(** [print(line)] *)
Definition print (line : list piece) (l : Learner) : Learner :=
  mkLearner (recorder l) (epoch l) (loss l) (hypers l) (model l) (files l)
            (stdout l ++ [line]).

(** The file a checkpoint name is stored in. *)
Definition pth (name : string) : string := name ++ ".pth".

(** Modelled from the spec: [Learner.save] is not part of this module.
    [persist_model(name)] stores the current model under the name,
    "overwriting any previous save under that name", in the file
    [{checkpoint_name}.{ext}]. *)
Definition save (name : string) (l : Learner) : Learner :=
  set_files (<[pth name := model l]> (files l)) l.

(** Modelled from the spec: [Learner.load] is not part of this module.
    [load_model(name)] "fails with NotFound if absent"; otherwise the live
    model becomes the persisted one. *)
Definition load (name : string) (l : Learner) : option Learner :=
  m ← files l !! pth name; Some (set_model m l).

(** [(learn.path/f'{learn.model_dir}/{name}.pth').is_file()] *)
Definition is_file (name : string) (l : Learner) : bool :=
  bool_decide (is_Some (files l !! pth name)).

End Learner.
Arguments Learner : clear implicits.

(** ** [class TerminateOnNaNCallback(Callback)] *)

Module TerminateOnNaNCallback.
Section WithModel.
Context {Model : Type}.

(** The class has no attribute of its own. *)
Definition t : Type := unit.

(** [torch.isinf(self.loss)] and [torch.isnan(self.loss)] on a scalar: the
    class of an IEEE 754 number, which does not depend on its precision. *)
Definition isinf (x : float) : bool := PrimFloat.is_infinity x.
Definition isnan (x : float) : bool := PrimFloat.is_nan x.

Definition after_batch (self : t) (learn : Learner Model) : outcome (t * Learner Model) :=
  if isinf (loss learn) || isnan (loss learn)
  then Raised CancelFitException (self, learn)
  else Done (self, learn).

End WithModel.
End TerminateOnNaNCallback.

(** ** [class TrackerCallback(Callback)] *)

Module TrackerCallback.

Record t : Type := mk {
  monitor : string;
  comp : comparator;
  min_delta : float;
  best : option float;
  new_best : option bool;
  idx : option nat
}.

Definition set_best (b : float) (self : t) : t :=
  mk (monitor self) (comp self) (min_delta self) (Some b) (new_best self) (idx self).

Definition set_new_best (b : bool) (self : t) : t :=
  mk (monitor self) (comp self) (min_delta self) (best self) (Some b) (idx self).

Definition set_idx (i : nat) (self : t) : t :=
  mk (monitor self) (comp self) (min_delta self) (best self) (new_best self) (Some i).

(** [__init__(self, monitor='valid_loss', comp=None, min_delta=0.)];
    [comp = None] is the absent argument. *)
Definition __init__ (monitor : string) (comp : option comparator) (min_delta : float) : t :=
  let comp :=
    match comp with
    | None => if contains "loss" monitor then np_less else np_greater
    | Some c => c
    end in
  let min_delta :=
    if is_np_less comp then PrimFloat.mul min_delta (-1) else min_delta in
  mk monitor comp min_delta None None None.

Section WithModel.
Context {Model : Type}.

Definition begin_fit (self : t) (learn : Learner Model) : outcome t :=
  let self :=
    set_best (if is_np_less (comp self) then infinity
              else PrimFloat.opp infinity) self in
  let names := tail (metric_names (recorder learn)) in
  if mem (monitor self) names then
    match index (monitor self) names with
    | Some i => Done (set_idx i self)
    | None => Raised ValueError self
    end
  else Raised AssertionError self.

Definition after_epoch (self : t) (learn : Learner Model) : outcome t :=
  match last (values (recorder learn)) with
  | None => Raised IndexError self
  | Some row =>
    match idx self with
    | None => Raised (AttributeError "idx") self
    | Some i =>
      match row !! i with
      | None => Raised IndexError self
      | Some val =>
        match best self with
        | None => Raised (AttributeError "best") self
        | Some b =>
          if call (comp self) (PrimFloat.sub val (min_delta self)) b
          then Done (set_new_best true (set_best val self))
          else Done (set_new_best false self)
        end
      end
    end
  end.

End WithModel.
End TrackerCallback.

(** ** [class EarlyStoppingCallback(TrackerCallback)] *)

Module EarlyStoppingCallback.

(** The inherited attributes are the [tracker] part of the object. *)
Record t : Type := mk {
  tracker : TrackerCallback.t;
  patience : Z;
  wait : option Z
}.

Definition set_tracker (tr : TrackerCallback.t) (self : t) : t :=
  mk tr (patience self) (wait self).

Definition set_wait (w : Z) (self : t) : t :=
  mk (tracker self) (patience self) (Some w).

Definition __init__ (monitor : string) (comp : option comparator) (min_delta : float)
    (patience : Z) : t :=
  mk (TrackerCallback.__init__ monitor comp min_delta) patience None.

(** [f'No improvement since epoch {self.epoch-self.wait}: early stopping'] *)
Definition message (epoch wait : Z) : list piece :=
  [Lit ("No improvement since epoch " ++ str_int (epoch - wait) ++ ": early stopping")].

Section WithModel.
Context {Model : Type}.

Definition begin_fit (self : t) (learn : Learner Model) : outcome (t * Learner Model) :=
  let self := set_wait 0 self in
  match TrackerCallback.begin_fit (tracker self) learn with
  | Done tr => Done (set_tracker tr self, learn)
  | Raised e tr => Raised e (set_tracker tr self, learn)
  end.

Definition after_epoch (self : t) (learn : Learner Model) : outcome (t * Learner Model) :=
  match TrackerCallback.after_epoch (tracker self) learn with
  | Raised e tr => Raised e (set_tracker tr self, learn)
  | Done tr =>
    let self := set_tracker tr self in
    match TrackerCallback.new_best tr with
    | None => Raised (AttributeError "new_best") (self, learn)
    | Some true => Done (set_wait 0 self, learn)
    | Some false =>
      match wait self with
      | None => Raised (AttributeError "wait") (self, learn)
      | Some w =>
        let self := set_wait (w + 1) self in
        if (patience self <=? w + 1)%Z
        then Raised CancelFitException
                    (self, print (message (epoch learn) (w + 1)) learn)
        else Done (self, learn)
      end
    end
  end.

End WithModel.
End EarlyStoppingCallback.

(** ** [class SaveModelCallback(TrackerCallback)] *)

Module SaveModelCallback.

Record t : Type := mk {
  tracker : TrackerCallback.t;
  fname : string;
  every_epoch : bool
}.

Definition set_tracker (tr : TrackerCallback.t) (self : t) : t :=
  mk tr (fname self) (every_epoch self).

Definition __init__ (monitor : string) (comp : option comparator) (min_delta : float)
    (fname : string) (every_epoch : bool) : t :=
  mk (TrackerCallback.__init__ monitor comp min_delta) fname every_epoch.

Section WithModel.
Context {Model : Type}.

(** Inherited unchanged from [TrackerCallback]. *)
Definition begin_fit (self : t) (learn : Learner Model) : outcome (t * Learner Model) :=
  match TrackerCallback.begin_fit (tracker self) learn with
  | Done tr => Done (set_tracker tr self, learn)
  | Raised e tr => Raised e (set_tracker tr self, learn)
  end.

Definition after_epoch (self : t) (learn : Learner Model) : outcome (t * Learner Model) :=
  if every_epoch self
  then Done (self, save (fname self ++ "_" ++ str_int (epoch learn)) learn)
  else
    match TrackerCallback.after_epoch (tracker self) learn with
    | Raised e tr => Raised e (set_tracker tr self, learn)
    | Done tr =>
      let self := set_tracker tr self in
      match TrackerCallback.new_best tr with
      | None => Raised (AttributeError "new_best") (self, learn)
      | Some true => Done (self, save (fname self) learn)
      | Some false => Done (self, learn)
      end
    end.

Definition on_train_end (self : t) (learn : Learner Model) : outcome (t * Learner Model) :=
  if negb (every_epoch self) && is_file (fname self) learn
  then
    match load (fname self) learn with
    | Some learn' => Done (self, learn')
    | None => Raised FileNotFoundError (self, learn)
    end
  else Done (self, learn).

End WithModel.
End SaveModelCallback.

(** ** [class ReduceLROnPlateau(TrackerCallback)] *)

Module ReduceLROnPlateau.

Record t : Type := mk {
  tracker : TrackerCallback.t;
  patience : Z;
  factor : float;
  wait : option Z
}.

Definition set_tracker (tr : TrackerCallback.t) (self : t) : t :=
  mk tr (patience self) (factor self) (wait self).

Definition set_wait (w : Z) (self : t) : t :=
  mk (tracker self) (patience self) (factor self) (Some w).

Definition __init__ (monitor : string) (comp : option comparator) (min_delta : float)
    (patience : Z) (factor : float) : t :=
  mk (TrackerCallback.__init__ monitor comp min_delta) patience factor None.

(** [for h in self.opt.hypers: h['lr'] /= self.factor].  The groups are
    distinct dictionaries, updated in place one after the other; when a
    group raises, the groups before it stay divided. *)
Fixpoint divide_lrs (factor : float) (hs : list (gmap string float))
    : outcome (list (gmap string float)) :=
  match hs with
  | [] => Done []
  | h :: rest =>
    match h !! "lr" with
    | None => Raised (KeyError "lr") (h :: rest)
    | Some lr =>
      match truediv lr factor with
      | None => Raised ZeroDivisionError (h :: rest)
      | Some q =>
        match divide_lrs factor rest with
        | Done rest' => Done (<["lr" := q]> h :: rest')
        | Raised e rest' => Raised e (<["lr" := q]> h :: rest')
        end
      end
    end
  end.

(** [f'Epoch {self.epoch}: reducing lr to {self.opt.hypers[-1]["lr"]}'] *)
Definition message (epoch : Z) (lr : float) : list piece :=
  [Lit ("Epoch " ++ str_int epoch ++ ": reducing lr to "); Flt lr].

Section WithModel.
Context {Model : Type}.

Definition begin_fit (self : t) (learn : Learner Model) : outcome (t * Learner Model) :=
  let self := set_wait 0 self in
  match TrackerCallback.begin_fit (tracker self) learn with
  | Done tr => Done (set_tracker tr self, learn)
  | Raised e tr => Raised e (set_tracker tr self, learn)
  end.

Definition after_epoch (self : t) (learn : Learner Model) : outcome (t * Learner Model) :=
  match TrackerCallback.after_epoch (tracker self) learn with
  | Raised e tr => Raised e (set_tracker tr self, learn)
  | Done tr =>
    let self := set_tracker tr self in
    match TrackerCallback.new_best tr with
    | None => Raised (AttributeError "new_best") (self, learn)
    | Some true => Done (set_wait 0 self, learn)
    | Some false =>
      match wait self with
      | None => Raised (AttributeError "wait") (self, learn)
      | Some w =>
        let self := set_wait (w + 1) self in
        if (patience self <=? w + 1)%Z
        then
          match divide_lrs (factor self) (hypers learn) with
          | Raised e hs => Raised e (self, set_hypers hs learn)
          | Done hs =>
            let learn := set_hypers hs learn in
            let self := set_wait 0 self in
            match last hs with
            | None => Raised IndexError (self, learn)
            | Some h =>
              match h !! "lr" with
              | None => Raised (KeyError "lr") (self, learn)
              | Some lr => Done (self, print (message (epoch learn) lr) learn)
              end
            end
          end
        else Done (self, learn)
      end
    end
  end.

End WithModel.
End ReduceLROnPlateau.

(** ** The fit loop that drives the callbacks *)

(** The four lifecycle points at which the loop calls a callback, and
    [Abort]: the abort signal was caught at the fit boundary. *)
Inductive event : Set :=
| BeginFit
| AfterBatch (epoch batch : nat)
| AfterEpoch (epoch : nat)
| Abort
| AfterFit.

Section Fit.
Context {Model : Type}.

Definition hook (Self : Type) : Type :=
  Self -> Learner Model -> outcome (Self * Learner Model).

Definition noop {Self : Type} : hook Self := fun self learn => Done (self, learn).

(** A callback offers a subset of the hooks; a hook it does not implement
    is [noop]. *)
Class Callback (Self : Type) : Type := {
  on_begin_fit : hook Self;
  on_after_batch : hook Self;
  on_after_epoch : hook Self;
  on_fit_end : hook Self
}.

Definition lift (h : TrackerCallback.t -> Learner Model -> outcome TrackerCallback.t)
    : hook TrackerCallback.t :=
  fun self learn =>
    match h self learn with
    | Done self' => Done (self', learn)
    | Raised e self' => Raised e (self', learn)
    end.

#[export] Instance TerminateOnNaN_cb : Callback TerminateOnNaNCallback.t :=
  {| on_begin_fit := noop;
     on_after_batch := TerminateOnNaNCallback.after_batch;
     on_after_epoch := noop;
     on_fit_end := noop |}.

#[export] Instance Tracker_cb : Callback TrackerCallback.t :=
  {| on_begin_fit := lift TrackerCallback.begin_fit;
     on_after_batch := noop;
     on_after_epoch := lift TrackerCallback.after_epoch;
     on_fit_end := noop |}.

#[export] Instance EarlyStopping_cb : Callback EarlyStoppingCallback.t :=
  {| on_begin_fit := EarlyStoppingCallback.begin_fit;
     on_after_batch := noop;
     on_after_epoch := EarlyStoppingCallback.after_epoch;
     on_fit_end := noop |}.

(** [SaveModelCallback] has no hook for the end of the fit.  The hooks of
    this module that the loop calls are named [begin_fit], [after_batch] and
    [after_epoch] and take no argument; [on_train_end(self, **kwargs)] is
    named and called after another scheme, and nothing calls it: the loop
    finds no method for the end of the fit and does nothing there. *)
#[export] Instance SaveModel_cb : Callback SaveModelCallback.t :=
  {| on_begin_fit := SaveModelCallback.begin_fit;
     on_after_batch := noop;
     on_after_epoch := SaveModelCallback.after_epoch;
     on_fit_end := noop |}.

#[export] Instance ReduceLROnPlateau_cb : Callback ReduceLROnPlateau.t :=
  {| on_begin_fit := ReduceLROnPlateau.begin_fit;
     on_after_batch := noop;
     on_after_epoch := ReduceLROnPlateau.after_epoch;
     on_fit_end := noop |}.

(** What the training loop itself produces during one epoch: the loss of
    each training batch, the model at the end of the epoch and the row of
    metric values the recorder appends. *)
Record epoch_data : Type := mkEpoch {
  batch_losses : list float;
  trained : Model;
  metrics : list float
}.

(** The result of a run: the hooks that were called, in order, and how the
    run ended. *)
Record run (Self : Type) : Type := mkRun {
  trace : list event;
  result : outcome (Self * Learner Model)
}.
Arguments mkRun {Self} _ _.
Arguments trace {Self} _.
Arguments result {Self} _.

Context {Self : Type} `{Callback Self}.

(** Modelled from the spec: the training loop is not part of this module.
    "The training loop invokes lifecycle hooks in a fixed order, each hook
    runs to completion before the next begins"; an exception "unwinds
    synchronously from the triggering point [...], skipping remaining hooks
    for the current and subsequent batches/epochs". *)
Fixpoint run_batches (e b : nat) (losses : list float) (st : Self * Learner Model)
    : run Self :=
  match losses with
  | [] => mkRun [] (Done st)
  | x :: rest =>
    match on_after_batch st.1 (set_loss x st.2) with
    | Raised ex st' => mkRun [AfterBatch e b] (Raised ex st')
    | Done st' =>
      let r := run_batches e (S b) rest st' in
      mkRun (AfterBatch e b :: trace r) (result r)
    end
  end.

(** Modelled from the spec: the epochs of the training loop.  Each epoch
    runs its batches, then the recorder appends the row of the epoch ("each
    epoch, the loop produces a metric vector"), then the epoch-end hook is
    called. *)
Fixpoint run_epochs (e : nat) (eps : list epoch_data) (st : Self * Learner Model)
    : run Self :=
  match eps with
  | [] => mkRun [] (Done st)
  | ep :: rest =>
    let rb := run_batches e 0 (batch_losses ep) (st.1, set_epoch (Z.of_nat e) st.2) in
    match result rb with
    | Raised ex st' => rb
    | Done st' =>
      let learn := record_row (metrics ep) (set_model (trained ep) st'.2) in
      match on_after_epoch st'.1 learn with
      | Raised ex st'' => mkRun (trace rb ++ [AfterEpoch e]) (Raised ex st'')
      | Done st'' =>
        let r := run_epochs (S e) rest st'' in
        mkRun (trace rb ++ AfterEpoch e :: trace r) (result r)
      end
    end
  end.

(** Modelled from the spec: [fit] is not part of this module.  The abort
    signal "is swallowed at the fit boundary and fit() returns normally",
    after the fit-end hook; any other exception "surfaces immediately to
    the caller of fit()". *)
Definition fit (eps : list epoch_data) (self : Self) (learn : Learner Model) : run Self :=
  match on_begin_fit self learn with
  | Raised ex st => mkRun [BeginFit] (Raised ex st)
  | Done st =>
    let r := run_epochs 0 eps st in
    match result r with
    | Done st' =>
      mkRun (BeginFit :: trace r ++ [AfterFit]) (on_fit_end st'.1 st'.2)
    | Raised CancelFitException st' =>
      mkRun (BeginFit :: trace r ++ [Abort; AfterFit]) (on_fit_end st'.1 st'.2)
    | Raised ex st' => mkRun (BeginFit :: trace r) (Raised ex st')
    end
  end.

End Fit.
Arguments trace {Model Self} _.
Arguments result {Model Self} _.

(** ** The tracker-based callbacks as one type *)

(** The tracker-based callbacks, as one closed variant. *)
Inductive policy : Type :=
| Tracker (cb : TrackerCallback.t)
| EarlyStopping (cb : EarlyStoppingCallback.t)
| SaveModel (cb : SaveModelCallback.t)
| ReduceLR (cb : ReduceLROnPlateau.t).

Definition tracker_of (p : policy) : TrackerCallback.t :=
  match p with
  | Tracker cb => cb
  | EarlyStopping cb => EarlyStoppingCallback.tracker cb
  | SaveModel cb => SaveModelCallback.tracker cb
  | ReduceLR cb => ReduceLROnPlateau.tracker cb
  end.

Section Policy.
Context {Model : Type}.

Definition as_policy {Self : Type} (inj : Self -> policy)
    (o : outcome (Self * Learner Model)) : outcome (policy * Learner Model) :=
  match o with
  | Done st => Done (inj st.1, st.2)
  | Raised e st => Raised e (inj st.1, st.2)
  end.

Definition dispatch (h : forall Self : Type, @Callback Model Self -> @hook Model Self)
    : @hook Model policy :=
  fun p learn =>
    match p with
    | Tracker cb => as_policy Tracker (h _ Tracker_cb cb learn)
    | EarlyStopping cb => as_policy EarlyStopping (h _ EarlyStopping_cb cb learn)
    | SaveModel cb => as_policy SaveModel (h _ SaveModel_cb cb learn)
    | ReduceLR cb => as_policy ReduceLR (h _ ReduceLROnPlateau_cb cb learn)
    end.

#[export] Instance policy_cb : @Callback Model policy :=
  {| on_begin_fit := dispatch (@on_begin_fit Model);
     on_after_batch := dispatch (@on_after_batch Model);
     on_after_epoch := dispatch (@on_after_epoch Model);
     on_fit_end := dispatch (@on_fit_end Model) |}.

End Policy.

(** ** Notions the statements use *)

Section Notions.
Context {Model : Type}.
Implicit Types (self : TrackerCallback.t) (learn : Learner Model).

(** [self.recorder.values[-1][self.idx]], when it evaluates. *)
Definition monitored self learn : option float :=
  row ← last (values (recorder learn));
  i ← TrackerCallback.idx self;
  row !! i.

(** The configuration of a tracker: what [__init__] stores. *)
Definition config self : string * comparator * float :=
  (TrackerCallback.monitor self, TrackerCallback.comp self,
   TrackerCallback.min_delta self).

End Notions.

(** The best-seen model, in the words of the specification: the model of the
    last epoch whose monitored value improved on the best value seen before
    it; [None] when no epoch improved. *)
Fixpoint best_seen {Model : Type} (c : comparator) (tol : float) (i : nat)
    (best : float) (eps : list (@epoch_data Model)) : option Model :=
  match eps with
  | [] => None
  | ep :: rest =>
    match metrics ep !! i with
    | None => None
    | Some v =>
      if call c (PrimFloat.sub v tol) best
      then Some (default (trained ep) (best_seen c tol i v rest))
      else best_seen c tol i best rest
    end
  end.

(** Two learners that differ in the batch loss at most. *)
Definition same_but_loss {Model : Type} (l l' : Learner Model) : Prop :=
  l' = set_loss (loss l') l.

(** ** Example runs *)

Module Example.

(** A learner whose recorder lists the columns of a default fit; the rows
    it records hold the training loss and the validation loss.  Models are
    numbered: model [n] is the one trained by the [n]-th epoch. *)
Definition learn : Learner nat :=
  mkLearner (mkRecorder ["epoch"; "train_loss"; "valid_loss"; "time"] [])
            0 0%float
            [ {[ "lr" := 0.1%float ]}; {[ "lr" := 0.1%float; "mom" := 0.9%float ]} ]
            0 ∅ [].

(** One epoch per validation loss, without batches. *)
Definition epochs (valid_losses : list float) : list (@epoch_data nat) :=
  imap (fun i v => mkEpoch [] (S i) [2%float; v]) valid_losses.

(** The content of the checkpoint file [name] after each of the epochs. *)
Definition checkpoint_history {Self : Type} `{Callback nat Self}
    (name : string) (eps : list epoch_data) (self : Self) (l : Learner nat)
    : list (option nat) :=
  (fun k =>
     match on_begin_fit self l with
     | Done st => files (state_of (result (run_epochs 0 (take k eps) st))).2 !! pth name
     | Raised _ _ => None
     end) <$> seq 1 (length eps).

End Example.

(** The states the example learner and its callbacks go through in a fit. *)
Module Scenario.
Import Example.

(** The tracker on validation loss after [begin_fit], and the learner
    after a first epoch with a validation loss of 0.5. *)
Definition tracker0 : TrackerCallback.t :=
  state_of (TrackerCallback.begin_fit
              (TrackerCallback.__init__ "valid_loss" None 0.1) learn).

Definition learn1 : Learner nat := record_row [2; 0.5]%float learn.

(** A second epoch, with a validation loss that is no better. *)
Definition learn2 : Learner nat :=
  set_epoch 1 (record_row [2; 0.5]%float learn1).

Definition stopper1 : EarlyStoppingCallback.t :=
  (state_of (EarlyStoppingCallback.after_epoch
     (state_of (EarlyStoppingCallback.begin_fit
                  (EarlyStoppingCallback.__init__ "valid_loss" None 0 1) learn)).1
     learn1)).1.

Definition reducer1 : ReduceLROnPlateau.t :=
  (state_of (ReduceLROnPlateau.after_epoch
     (state_of (ReduceLROnPlateau.begin_fit
                  (ReduceLROnPlateau.__init__ "valid_loss" None 0 1 10) learn)).1
     learn1)).1.

End Scenario.

(** ** Further notions the statements use *)

(** The states a tracker goes through: the one [begin_fit] leaves, from any
    state and however it ends, and the ones the epoch updates leave after
    it. *)
Inductive tracked (Model : Type) : TrackerCallback.t -> Prop :=
| tracked_begin (self : TrackerCallback.t) (learn : Learner Model) :
    tracked Model (state_of (TrackerCallback.begin_fit self learn))
| tracked_epoch (self : TrackerCallback.t) (learn : Learner Model) :
    tracked Model self ->
    tracked Model (state_of (TrackerCallback.after_epoch self learn)).

(** What the loop over the groups may do to a group: nothing but replace
    the learning rate it has. *)
Definition lr_only (h h' : gmap string float) : Prop :=
  (forall k, k <> "lr" -> h' !! k = h !! k)
  /\ (is_Some (h' !! "lr") <-> is_Some (h !! "lr")).

(** The epochs whose hook was called, read off a trace. *)
Fixpoint epoch_hooks (tr : list event) : list nat :=
  match tr with
  | [] => []
  | AfterEpoch e :: r => e :: epoch_hooks r
  | _ :: r => epoch_hooks r
  end.

(** A run of values each of which improves on the one before, the first on
    [b], as the comparator [c] with the tolerance [tol] sees it. *)
Fixpoint improving (c : comparator) (tol b : float) (vs : list float) : bool :=
  match vs with
  | [] => true
  | v :: r => call c (PrimFloat.sub v tol) b && improving c tol v r
  end.

(** More states of the example learner and its callbacks. *)
Module Fixture.
Import Example.

(** The tracker of the early-stopping callback of [Scenario], after one
    epoch: default tolerance, [best] at 0.5. *)
Definition tracker1 : TrackerCallback.t :=
  EarlyStoppingCallback.tracker Scenario.stopper1.

(** A second epoch whose validation loss is NaN. *)
Definition learn_nan : Learner nat :=
  set_epoch 1 (record_row [2; nan]%float Scenario.learn1).

(** A callback that saves at every epoch. *)
Definition saver : SaveModelCallback.t :=
  SaveModelCallback.__init__ "valid_loss" None 0 "model" true.

(** The learner of the second epoch with a second group that has a momentum
    and no learning rate. *)
Definition learn_no_lr : Learner nat :=
  set_hypers [ {[ "lr" := 0.1%float ]}; {[ "mom" := 0.9%float ]} ] Scenario.learn2.

(** The early-stopping callback with a patience of 2 after [begin_fit]. *)
Definition patient : EarlyStoppingCallback.t :=
  (state_of (EarlyStoppingCallback.begin_fit
               (EarlyStoppingCallback.__init__ "valid_loss" None 0 2) learn)).1.

(** The same after a first epoch with a validation loss of 0.5. *)
Definition patient1 : EarlyStoppingCallback.t :=
  (state_of (EarlyStoppingCallback.after_epoch patient Scenario.learn1)).1.

End Fixture.

(** * Properties *)

(** ** Substring search *)

Section Contains.

Lemma append_nil (s : string) : "" +:+ s = s.
Proof. reflexivity. Qed.

Lemma append_cons (a : Ascii.ascii) (s t : string) :
  String a s +:+ t = String a (s +:+ t).
Proof. reflexivity. Qed.

Lemma prefix_app (n h : string) :
  String.prefix n h = true <-> exists post, h = n +:+ post.
Proof.
  revert h; induction n as [|a n IH]; intros h.
  - split; [intros _; by exists h | by destruct h].
  - destruct h as [|b h]; simpl.
    + split; [done | intros [post Hp]; discriminate].
    + destruct (Ascii.ascii_dec a b) as [->|Hab].
      * rewrite IH. split; intros [post Hp]; exists post;
          rewrite append_cons in *; congruence.
      * split; [done | intros [post Hp]; rewrite append_cons in Hp; congruence].
Qed.

(** [contains] decides the substring relation: [needle] occurs in [hay]
    between some prefix and some suffix. *)
Lemma contains_spec (n h : string) :
  contains n h = true <-> exists pre post, h = pre +:+ n +:+ post.
Proof.
  induction h as [|b h IH]; cbn [contains].
  - rewrite orb_false_r, prefix_app. split.
    + intros [post Hp]. by exists "", post.
    + intros [[|c pre] [post Hp]]; [by exists post | discriminate].
  - rewrite orb_true_iff, prefix_app, IH. split.
    + intros [[post Hp] | (pre & post & Hp)].
      * by exists "", post.
      * exists (String b pre), post. by rewrite append_cons, Hp.
    + intros [[|c pre] [post Hp]].
      * left. by exists post.
      * right. exists pre, post. rewrite append_cons in Hp. congruence.
Qed.

End Contains.

(** ** Lists of names *)

Section Names.

Lemma index_mem (x : string) (l : list string) (i : nat) :
  index x l = Some i -> mem x l = true.
Proof.
  unfold mem. intros Hi. apply bool_decide_eq_true_2.
  revert i Hi. induction l as [|y l IH]; intros i Hi; [done |].
  simpl in Hi. case_decide as Hy.
  - subst. apply list_elem_of_here.
  - destruct (index x l) as [j|]; [|done]. apply list_elem_of_further. by eapply IH.
Qed.

Lemma mem_index (x : string) (l : list string) :
  mem x l = true -> is_Some (index x l).
Proof.
  unfold mem. intros Hm. apply bool_decide_eq_true_1 in Hm.
  induction Hm as [y l|y z l Hm IH]; simpl.
  - rewrite decide_True by done. by eexists.
  - case_decide; [by eexists |]. destruct IH as [j ->]. by eexists.
Qed.

End Names.

(** ** Construction *)

(** C9: with no comparator supplied, [TrackerCallback.__init__] selects
    [np.less] exactly when "loss" occurs in the monitor name as a substring
    (some prefix, then the four characters l, o, s, s, then some suffix), and
    [np.greater] otherwise; the match is case-sensitive, so that "valid_Loss"
    selects [np.greater]. *)
Theorem default_comparator (monitor : string) (min_delta : float) :
  let self := TrackerCallback.__init__ monitor None min_delta in
  (TrackerCallback.comp self = np_less
   <-> exists pre post, monitor = pre +:+ "loss" +:+ post)
  /\ (TrackerCallback.comp self = np_greater
      <-> ~ exists pre post, monitor = pre +:+ "loss" +:+ post)
  /\ TrackerCallback.comp (TrackerCallback.__init__ "valid_loss" None min_delta) = np_less
  /\ TrackerCallback.comp (TrackerCallback.__init__ "valid_Loss" None min_delta) = np_greater
  /\ TrackerCallback.comp (TrackerCallback.__init__ "accuracy" None min_delta) = np_greater.
Proof.
  simpl. rewrite <- (contains_spec "loss" monitor).
  unfold TrackerCallback.__init__; simpl.
  destruct (contains "loss" monitor); simpl; repeat split; try done.
  all: intros ?; done.
Qed.

(** C10: a caller-supplied comparator that is not the object [np.less]
    (whatever it computes) is stored as it is, [min_delta] is stored
    unchanged, and [begin_fit] sets [best] to minus infinity. *)
Theorem foreign_comparator {Model : Type} (c : comparator) (monitor : string)
    (min_delta : float) (learn : Learner Model) :
  c <> np_less ->
  let self := TrackerCallback.__init__ monitor (Some c) min_delta in
  TrackerCallback.comp self = c
  /\ TrackerCallback.min_delta self = min_delta
  /\ TrackerCallback.best (state_of (TrackerCallback.begin_fit self learn))
     = Some neg_infinity.
Proof.
  intros Hc. unfold TrackerCallback.__init__, TrackerCallback.begin_fit.
  destruct c; [done | |]; simpl.
  all: split; [done | split; [done |]].
  all: destruct (mem _ _); [destruct (index _ _) |]; done.
Qed.

(** [operator.lt] computes the same order as [np.less] and yet is kept with
    an unflipped [min_delta] and a [best] of minus infinity. *)
Lemma foreign_comparator_witness :
  operator_lt <> np_less
  /\ (forall a b, call operator_lt a b = call np_less a b)
  /\ TrackerCallback.min_delta
       (TrackerCallback.__init__ "valid_loss" (Some operator_lt) 0.5) = 0.5%float
  /\ TrackerCallback.best
       (state_of (TrackerCallback.begin_fit
                    (TrackerCallback.__init__ "valid_loss" (Some operator_lt) 0.5)
                    (mkLearner (mkRecorder ["epoch"; "train_loss"; "valid_loss"] [])
                               0 0%float [] tt ∅ [])))
     = Some neg_infinity.
Proof.
  assert (Hne : operator_lt <> np_less) by done.
  split; [exact Hne | split; [done |]].
  pose proof (foreign_comparator operator_lt "valid_loss" 0.5%float
    (mkLearner (mkRecorder ["epoch"; "train_loss"; "valid_loss"] [])
               0 0%float [] tt ∅ []) Hne) as (_ & H2 & H3).
  split; [exact H2 | exact H3].
Defined.

(** ** The tracker *)

Section Tracker.
Context {Model : Type}.
Implicit Types (self : TrackerCallback.t) (learn : Learner Model).

(** No hook changes the configuration. *)
Lemma begin_fit_config self learn :
  config (state_of (TrackerCallback.begin_fit self learn)) = config self.
Proof.
  unfold TrackerCallback.begin_fit.
  destruct (mem _ _); [destruct (index _ _) |]; reflexivity.
Qed.

Lemma after_epoch_config self learn :
  config (state_of (TrackerCallback.after_epoch self learn)) = config self.
Proof.
  unfold TrackerCallback.after_epoch.
  repeat case_match; reflexivity.
Qed.

Lemma after_epoch_idx self learn :
  TrackerCallback.idx (state_of (TrackerCallback.after_epoch self learn))
  = TrackerCallback.idx self.
Proof.
  unfold TrackerCallback.after_epoch.
  repeat case_match; simpl; congruence.
Qed.

(** The epoch update, once the monitored value and [best] are there. *)
Lemma after_epoch_eq self learn val b :
  monitored self learn = Some val ->
  TrackerCallback.best self = Some b ->
  TrackerCallback.after_epoch self learn =
    if call (TrackerCallback.comp self)
            (PrimFloat.sub val (TrackerCallback.min_delta self)) b
    then Done (TrackerCallback.set_new_best true (TrackerCallback.set_best val self))
    else Done (TrackerCallback.set_new_best false self).
Proof.
  unfold monitored, TrackerCallback.after_epoch. intros Hval Hb.
  destruct (last _) as [row|]; [|done]. simpl in Hval.
  destruct (TrackerCallback.idx self) as [i|]; [|done]. simpl in Hval.
  by rewrite Hval, Hb.
Qed.

(** The update never invents a flag: a finished update has set [new_best]. *)
Lemma after_epoch_Done self learn tr :
  TrackerCallback.after_epoch self learn = Done tr ->
  exists val b,
    monitored self learn = Some val /\ TrackerCallback.best self = Some b
    /\ TrackerCallback.new_best tr
       = Some (call (TrackerCallback.comp self)
                    (PrimFloat.sub val (TrackerCallback.min_delta self)) b).
Proof.
  unfold monitored, TrackerCallback.after_epoch. intros H.
  destruct (last _) as [row|]; [|done]. simpl.
  destruct (TrackerCallback.idx self) as [i|]; [|done]. simpl.
  destruct (row !! i) as [val|]; [|done].
  destruct (TrackerCallback.best self) as [b|]; [|done].
  exists val, b. split; [done | split; [done |]].
  destruct (call _ _ _); inversion H; reflexivity.
Qed.

(** What [begin_fit] does to the tracker, in whatever state it finds it
    and however it ends: [best] is set, nothing else but [idx] changes. *)
Lemma begin_fit_best self learn :
  let self' := state_of (TrackerCallback.begin_fit self learn) in
  TrackerCallback.best self'
  = Some (if is_np_less (TrackerCallback.comp self) then infinity else neg_infinity)
  /\ TrackerCallback.new_best self' = TrackerCallback.new_best self.
Proof.
  cbv zeta. unfold TrackerCallback.begin_fit.
  destruct (mem _ _); [destruct (index _ _) |];
    by destruct (is_np_less _).
Qed.

(** C1: at the start of a fit, whatever the state of the tracker (fresh from
    [__init__] or left by an earlier fit) and of the recorder, and whether
    or not the monitor name is found, [begin_fit] sets [best] to plus
    infinity for [np.less] and to minus infinity for any other comparator,
    and changes nothing of the configuration.  At an epoch, when the
    comparison holds, the update sets [best] to the monitored value and
    [new_best] to true; when it does not, it sets [new_best] to false and
    leaves [best] as it was; in both cases nothing else changes. *)
Theorem tracker_update self learn :
  (let self0 := state_of (TrackerCallback.begin_fit self learn) in
   TrackerCallback.best self0
   = Some (if is_np_less (TrackerCallback.comp self) then infinity else neg_infinity)
   /\ TrackerCallback.new_best self0 = TrackerCallback.new_best self
   /\ config self0 = config self)
  /\ (forall val b : float,
        monitored self learn = Some val ->
        TrackerCallback.best self = Some b ->
        let improved :=
          call (TrackerCallback.comp self)
               (PrimFloat.sub val (TrackerCallback.min_delta self)) b in
        let self' := state_of (TrackerCallback.after_epoch self learn) in
        raised (TrackerCallback.after_epoch self learn) = None
        /\ (improved = true ->
            TrackerCallback.best self' = Some val
            /\ TrackerCallback.new_best self' = Some true)
        /\ (improved = false ->
            TrackerCallback.best self' = Some b
            /\ TrackerCallback.new_best self' = Some false)
        /\ config self' = config self
        /\ TrackerCallback.idx self' = TrackerCallback.idx self).
Proof.
  split.
  - destruct (begin_fit_best self learn) as [Hbest Hnew].
    split; [exact Hbest | split; [exact Hnew | apply begin_fit_config]].
  - intros val b Hval Hb improved self'. subst self'.
    rewrite (after_epoch_eq _ _ _ _ Hval Hb). fold improved.
    split; [by destruct improved |].
    split; [intros ->; done |].
    split; [intros ->; done |].
    split; by destruct improved.
Qed.

End Tracker.

(** ** IEEE 754 facts *)

Section Negation.
Local Open Scope Z_scope.

Lemma Prim2SF_minus_one :
  Prim2SF (-1)%float = S754_finite true 4503599627370496 (-52).
Proof. reflexivity. Qed.

Lemma mul_pow52 (m : positive) :
  (m * 4503599627370496)%positive = Pos.iter xO m 52.
Proof. rewrite Pos.mul_comm. reflexivity. Qed.

Lemma digits_pow52 (m : positive) :
  Zpos (digits2_pos (Pos.iter xO m 52)) = Zpos (digits2_pos m) + 52.
Proof. cbn [Pos.iter digits2_pos]. lia. Qed.

Lemma shr_pow52 (m : positive) :
  SpecFloat.iter_pos shr_1 52 (Build_shr_record (Zpos (Pos.iter xO m 52)) false false)
  = Build_shr_record (Zpos m) false false.
Proof. reflexivity. Qed.

(** The product of a representable mantissa with the mantissa of 1 shifts
    back to itself, exactly. *)
Lemma round_times_minus_one (s : bool) (m : positive) (e : Z) :
  bounded prec emax m e = true ->
  binary_round_aux prec emax (xorb s true)
                   (Zpos (m * 4503599627370496)) (e + -52) loc_Exact
  = S754_finite (negb s) m e.
Proof.
  unfold bounded, canonical_mantissa. intros Hb.
  apply andb_prop in Hb as [Hc He]. apply Z.eqb_eq in Hc.
  rewrite mul_pow52. unfold binary_round_aux, shr_fexp.
  unfold Zdigits2 at 1. rewrite digits_pow52.
  replace (Z.pos (digits2_pos m) + 52 + (e + -52))
    with (Z.pos (digits2_pos m) + e) by lia.
  rewrite Hc. replace (e - (e + -52)) with 52 by lia.
  unfold shr at 1. unfold shr_record_of_loc. rewrite !shr_pow52.
  cbn [shr_m loc_of_shr_record round_nearest_even shr_record_of_loc Zdigits2].
  replace (e + -52 + 52) with e by lia.
  rewrite Hc, Z.sub_diag. cbn [shr shr_m]. rewrite He.
  by destruct s.
Qed.

(** [x *= -1] negates a float, whatever the float. *)
Lemma mul_minus_one (x : float) : (x * -1)%float = (- x)%float.
Proof.
  apply Prim2SF_inj. rewrite mul_spec, opp_spec, Prim2SF_minus_one.
  pose proof (Prim2SF_valid x) as Hv.
  destruct (Prim2SF x) as [s|s| |s m e]; simpl in Hv |- *.
  - by destruct s.
  - by destruct s.
  - reflexivity.
  - unfold SF64mul, SFmul. by apply round_times_minus_one.
Qed.

End Negation.

(** ** The comparison *)

Section Comparison.
Context {Model : Type}.
Implicit Types (self : TrackerCallback.t) (learn : Learner Model).

(** What [__init__] stores as [min_delta]. *)
Lemma stored_min_delta (monitor : string) (c : option comparator) (d : float) :
  let self := TrackerCallback.__init__ monitor c d in
  TrackerCallback.min_delta self
  = if is_np_less (TrackerCallback.comp self) then (- d)%float else d.
Proof.
  unfold TrackerCallback.__init__; cbn [TrackerCallback.min_delta TrackerCallback.comp].
  case_match; [by rewrite mul_minus_one | done].
Qed.

(** C2: a tracker configured by [__init__ monitor c d] declares the
    monitored value [val] an improvement on [best] exactly when
    [comp(val - tolerance, best)] holds, where the stored tolerance is the
    negation of [d] when the comparator is [np.less] and [d] itself
    otherwise: [val + d < best] read with the one formula for [np.less],
    [val - d > best] for [np.greater]. *)
Theorem improvement_formula (monitor : string) (c : option comparator) (d : float)
    self learn (val b : float) :
  config self = config (TrackerCallback.__init__ monitor c d) ->
  monitored self learn = Some val ->
  TrackerCallback.best self = Some b ->
  let cmp := TrackerCallback.comp (TrackerCallback.__init__ monitor c d) in
  let tolerance := if is_np_less cmp then (- d)%float else d in
  let self' := state_of (TrackerCallback.after_epoch self learn) in
  TrackerCallback.min_delta self = tolerance
  /\ (TrackerCallback.new_best self' = Some true
      <-> call cmp (val - tolerance)%float b = true)
  /\ (TrackerCallback.new_best self' = Some false
      <-> call cmp (val - tolerance)%float b = false)
  /\ (cmp = np_less ->
      TrackerCallback.new_best self' = Some (val - - d <? b)%float)
  /\ (cmp = np_greater ->
      TrackerCallback.new_best self' = Some (b <? val - d)%float).
Proof.
  intros Hcfg Hval Hb cmp tolerance self'.
  unfold config in Hcfg. injection Hcfg as _ Hc Hd0.
  change (TrackerCallback.comp self = cmp) in Hc.
  assert (Hd : TrackerCallback.min_delta self = tolerance).
  { subst tolerance cmp. by rewrite <- stored_min_delta. }
  assert (Hnew : TrackerCallback.new_best self'
                 = Some (call cmp (val - tolerance)%float b)).
  { subst self'. rewrite (after_epoch_eq _ _ _ _ Hval Hb), Hc, Hd.
    by destruct (call _ _ _). }
  rewrite Hnew. split; [done |].
  split; [split; [by intros [= ?] | by intros ->] |].
  split; [split; [by intros [= ?] | by intros ->] |].
  subst tolerance. split; intros ->; reflexivity.
Qed.

End Comparison.

(** ** Termination on NaN *)

Section NaNGuard.
Context {Model : Type}.

Lemma SFcompare_refl (x : spec_float) :
  x <> S754_nan -> SFcompare x x = Some Eq.
Proof.
  destruct x as [s|s| |s m e]; intros Hx; try done; simpl.
  - by destruct s.
  - destruct s; rewrite Z.compare_refl; f_equal;
      change (Pos.compare_cont Eq m m) with (Pos.compare m m);
      by rewrite Pos.compare_refl.
Qed.

(** [isinf] and [isnan] are the IEEE 754 classes: together they hold exactly
    of the two infinities and of NaN. *)
Lemma isinf_or_isnan (x : float) :
  TerminateOnNaNCallback.isinf x || TerminateOnNaNCallback.isnan x = true
  <-> classify x = PInf \/ classify x = NInf \/ classify x = NaN.
Proof.
  unfold TerminateOnNaNCallback.isinf, TerminateOnNaNCallback.isnan,
    is_infinity, is_nan.
  rewrite !FloatAxioms.eqb_spec, abs_spec, classify_spec.
  change (Prim2SF infinity) with (S754_infinity false).
  unfold SFeqb.
  destruct (Prim2SF x) as [s|s| |s m e] eqn:Hx.
  - destruct s; simpl; intuition congruence.
  - destruct s; simpl; intuition congruence.
  - simpl; intuition congruence.
  - rewrite SFcompare_refl by done.
    unfold SF64classify, SFclassify.
    destruct s; simpl; case_match; intuition congruence.
Qed.

(** C7: [after_batch] raises [CancelFitException] exactly when the batch
    loss is an infinity or NaN, and otherwise returns, in both cases
    without touching anything; on the batch losses 1.0, 2.0, NaN, 3.0 the
    hook runs for the first three batches, raises at the third, and the
    fit ends without a hook for the fourth. *)
Theorem nan_guard (self : TerminateOnNaNCallback.t) (learn : Learner Model)
    (m : Model) (row : list float) :
  let r := TerminateOnNaNCallback.after_batch self learn in
  (raised r = Some CancelFitException
   <-> classify (loss learn) = PInf \/ classify (loss learn) = NInf
       \/ classify (loss learn) = NaN)
  /\ (raised r = None
      <-> ~ (classify (loss learn) = PInf \/ classify (loss learn) = NInf
            \/ classify (loss learn) = NaN))
  /\ state_of r = (self, learn)
  /\ (let rb := run_batches 0 0 [1; 2; nan; 3]%float (self, learn) in
      trace rb = [AfterBatch 0 0; AfterBatch 0 1; AfterBatch 0 2]
      /\ result rb = Raised CancelFitException (self, set_loss nan learn))
  /\ trace (fit [mkEpoch [1; 2; nan; 3]%float m row] self learn)
     = [BeginFit; AfterBatch 0 0; AfterBatch 0 1; AfterBatch 0 2; Abort; AfterFit].
Proof.
  cbv zeta. rewrite <- isinf_or_isnan.
  unfold TerminateOnNaNCallback.after_batch.
  split; [|split; [|split]].
  - destruct (_ || _); simpl; intuition congruence.
  - destruct (_ || _); simpl; intuition congruence.
  - by destruct (_ || _).
  - split; [split |]; reflexivity.
Qed.

End NaNGuard.

(** ** Early stopping *)

Section EarlyStopping.
Context {Model : Type}.
Implicit Types (self : EarlyStoppingCallback.t) (learn : Learner Model).

Lemma stopper_improved self learn tr :
  TrackerCallback.after_epoch (EarlyStoppingCallback.tracker self) learn = Done tr ->
  TrackerCallback.new_best tr = Some true ->
  EarlyStoppingCallback.after_epoch self learn
  = Done (EarlyStoppingCallback.set_wait 0
            (EarlyStoppingCallback.set_tracker tr self), learn).
Proof.
  intros Htr Hnew. unfold EarlyStoppingCallback.after_epoch.
  by rewrite Htr, Hnew.
Qed.

Lemma stopper_waiting self learn tr w :
  TrackerCallback.after_epoch (EarlyStoppingCallback.tracker self) learn = Done tr ->
  TrackerCallback.new_best tr = Some false ->
  EarlyStoppingCallback.wait self = Some w ->
  EarlyStoppingCallback.after_epoch self learn
  = let self' := EarlyStoppingCallback.set_wait (w + 1)
                   (EarlyStoppingCallback.set_tracker tr self) in
    if (EarlyStoppingCallback.patience self <=? w + 1)%Z
    then Raised CancelFitException
           (self', print (EarlyStoppingCallback.message (epoch learn) (w + 1)) learn)
    else Done (self', learn).
Proof.
  intros Htr Hnew Hw. unfold EarlyStoppingCallback.after_epoch.
  rewrite Htr, Hnew. cbn [EarlyStoppingCallback.set_tracker EarlyStoppingCallback.wait].
  by rewrite Hw.
Qed.

Lemma stopper_example_run :
  let run := fit (Example.epochs [1.0; 0.9; 0.95; 0.97; 1.0]%float)
                 (EarlyStoppingCallback.__init__ "valid_loss" None 0 2)
                 Example.learn in
  trace run = [BeginFit; AfterEpoch 0; AfterEpoch 1; AfterEpoch 2;
               AfterEpoch 3; Abort; AfterFit]
  /\ stdout (state_of (result run)).2
     = [[Lit "No improvement since epoch 1: early stopping"]].
Proof. split; vm_compute; reflexivity. Qed.

(** C3: once the tracker update of the epoch is done, an improvement sets
    [wait] to 0 and the hook returns; a non-improvement adds 1 to [wait],
    and the hook raises [CancelFitException] exactly when the new [wait]
    has reached [patience], after printing the line that names the epoch
    [epoch - wait].  With patience 2 and the validation losses 1.0, 0.9,
    0.95, 0.97, 1.0 the signal is raised by the hook of the fourth epoch
    (epoch 3, counting from 0) and the hook is not called a fifth time. *)
Theorem early_stopping self learn (tr : TrackerCallback.t) (w : Z) :
  TrackerCallback.after_epoch (EarlyStoppingCallback.tracker self) learn = Done tr ->
  EarlyStoppingCallback.wait self = Some w ->
  let r := EarlyStoppingCallback.after_epoch self learn in
  let self' := (state_of r).1 in
  let learn' := (state_of r).2 in
  EarlyStoppingCallback.tracker self' = tr
  /\ EarlyStoppingCallback.patience self' = EarlyStoppingCallback.patience self
  /\ (TrackerCallback.new_best tr = Some true ->
      EarlyStoppingCallback.wait self' = Some 0%Z
      /\ raised r = None /\ learn' = learn)
  /\ (TrackerCallback.new_best tr = Some false ->
      EarlyStoppingCallback.wait self' = Some (w + 1)%Z
      /\ (raised r = Some CancelFitException
          <-> (w + 1 >= EarlyStoppingCallback.patience self)%Z)
      /\ (raised r = None
          <-> (w + 1 < EarlyStoppingCallback.patience self)%Z)
      /\ ((w + 1 >= EarlyStoppingCallback.patience self)%Z ->
          stdout learn' = (stdout learn ++
            [[Lit ("No improvement since epoch "
                   +:+ str_int (epoch learn - (w + 1)) +:+ ": early stopping")]])%list)
      /\ ((w + 1 < EarlyStoppingCallback.patience self)%Z -> learn' = learn))
  /\ (let run := fit (Example.epochs [1.0; 0.9; 0.95; 0.97; 1.0]%float)
                     (EarlyStoppingCallback.__init__ "valid_loss" None 0 2)
                     Example.learn in
      trace run = [BeginFit; AfterEpoch 0; AfterEpoch 1; AfterEpoch 2;
                   AfterEpoch 3; Abort; AfterFit]
      /\ stdout (state_of (result run)).2
         = [[Lit "No improvement since epoch 1: early stopping"]]).
Proof.
  intros Htr Hw r self' learn'. subst self' learn' r.
  split; [|split; [|split; [|split]]].
  - unfold EarlyStoppingCallback.after_epoch. rewrite Htr.
    repeat case_match; reflexivity.
  - unfold EarlyStoppingCallback.after_epoch. rewrite Htr.
    repeat case_match; reflexivity.
  - intros Hnew. by rewrite (stopper_improved _ _ _ Htr Hnew).
  - intros Hnew. rewrite (stopper_waiting _ _ _ _ Htr Hnew Hw). cbv zeta.
    destruct (Z.leb_spec (EarlyStoppingCallback.patience self) (w + 1)) as [Hp|Hp];
      cbn [state_of raised fst snd EarlyStoppingCallback.wait
           EarlyStoppingCallback.set_wait].
    + split; [done |]. split; [split; [lia | done] |].
      split; [split; [done | lia] |]. split; [done | lia].
    + split; [done |]. split; [split; [done | lia] |].
      split; [split; [lia | done] |]. split; [lia | done].
  - exact stopper_example_run.
Qed.

End EarlyStopping.

(** ** Checkpoints *)

Section SaveModel.
Context {Model : Type}.
Implicit Types (self : SaveModelCallback.t) (learn : Learner Model).

Lemma files_save (name : string) learn :
  files (save name learn) = <[pth name := model learn]> (files learn).
Proof. reflexivity. Qed.

Lemma save_every_epoch self learn :
  SaveModelCallback.every_epoch self = true ->
  SaveModelCallback.after_epoch self learn
  = Done (self, save (SaveModelCallback.fname self +:+ "_" +:+ str_int (epoch learn)) learn).
Proof. intros He. unfold SaveModelCallback.after_epoch. by rewrite He. Qed.

Lemma save_best_only self learn tr :
  SaveModelCallback.every_epoch self = false ->
  TrackerCallback.after_epoch (SaveModelCallback.tracker self) learn = Done tr ->
  SaveModelCallback.after_epoch self learn
  = Done (SaveModelCallback.set_tracker tr self,
          if bool_decide (TrackerCallback.new_best tr = Some true)
          then save (SaveModelCallback.fname self) learn else learn).
Proof.
  intros He Htr. unfold SaveModelCallback.after_epoch. rewrite He, Htr.
  destruct (after_epoch_Done _ _ _ Htr) as (val & b & _ & _ & Hnew).
  rewrite Hnew. by destruct (call _ _ _).
Qed.

Lemma save_model_runs :
  Example.checkpoint_history "model" (Example.epochs [0.5; 0.4; 0.6; 0.3]%float)
    (SaveModelCallback.__init__ "valid_loss" None 0 "model" false) Example.learn
  = [Some 1; Some 2; Some 2; Some 4]
  /\ (let learn' :=
        (state_of (result (fit (Example.epochs [0.5; 0.4; 0.6; 0.3]%float)
           (SaveModelCallback.__init__ "valid_loss" None 0 "model" true)
           Example.learn))).2 in
      (fun name => files learn' !! name)
        <$> ["model_0.pth"; "model_1.pth"; "model_2.pth"; "model_3.pth"; "model.pth"]
      = [Some 1; Some 2; Some 3; Some 4; None]).
Proof. split; vm_compute; reflexivity. Qed.

(** C4: in every-epoch mode the hook persists the current model in the
    file named [fname], an underscore and the epoch number, and neither
    reads nor changes the tracker part of the callback; in best-only mode
    it updates the tracker and persists the model under the bare [fname]
    exactly when the update set a new best.  For the validation losses 0.5,
    0.4, 0.6, 0.3 the checkpoint holds the model of the first epoch, then
    of the second, still of the second after the third epoch, and of the
    fourth after the fourth. *)
Theorem checkpointing self learn :
  let r := SaveModelCallback.after_epoch self learn in
  (SaveModelCallback.every_epoch self = true ->
     raised r = None
     /\ (state_of r).1 = self
     /\ files (state_of r).2
        = <[(SaveModelCallback.fname self +:+ "_" +:+ str_int (epoch learn)) +:+ ".pth"
            := model learn]> (files learn)
     /\ forall tr : TrackerCallback.t,
          SaveModelCallback.after_epoch (SaveModelCallback.set_tracker tr self) learn
          = Done (SaveModelCallback.set_tracker tr self, (state_of r).2))
  /\ (SaveModelCallback.every_epoch self = false ->
      forall tr : TrackerCallback.t,
        TrackerCallback.after_epoch (SaveModelCallback.tracker self) learn = Done tr ->
        raised r = None
        /\ (state_of r).1 = SaveModelCallback.set_tracker tr self
        /\ (TrackerCallback.new_best tr = Some true ->
            files (state_of r).2
            = <[SaveModelCallback.fname self +:+ ".pth" := model learn]> (files learn))
        /\ (TrackerCallback.new_best tr <> Some true -> (state_of r).2 = learn))
  /\ Example.checkpoint_history "model" (Example.epochs [0.5; 0.4; 0.6; 0.3]%float)
       (SaveModelCallback.__init__ "valid_loss" None 0 "model" false) Example.learn
     = [Some 1; Some 2; Some 2; Some 4].
Proof.
  intros r; subst r. split; [|split].
  - intros He. rewrite (save_every_epoch _ _ He).
    split; [done | split; [done | split; [done |]]].
    intros tr. by rewrite save_every_epoch.
  - intros He tr Htr. rewrite (save_best_only _ _ _ He Htr).
    split; [done | split; [done | split]].
    + intros Hnew. cbn [state_of snd]. by rewrite bool_decide_eq_true_2.
    + intros Hnew. cbn [state_of snd]. by rewrite bool_decide_eq_false_2.
  - exact (proj1 save_model_runs).
Qed.

End SaveModel.

(** ** The model in memory after the fit *)

Section Reload.
Context {Model : Type}.
Implicit Types (self : SaveModelCallback.t) (learn : Learner Model).

Lemma same_but_loss_refl learn : same_but_loss learn learn.
Proof. by destruct learn. Qed.

(** A callback without a batch hook lets the batches of an epoch pass. *)
Lemma run_batches_save e b (losses : list float) self learn :
  exists learn',
    result (run_batches e b losses (self, learn)) = Done (self, learn')
    /\ same_but_loss learn learn'.
Proof.
  revert b learn. induction losses as [|x losses IH]; intros b learn.
  - exists learn. split; [done | apply same_but_loss_refl].
  - cbn [run_batches on_after_batch SaveModel_cb noop result fst snd].
    destruct (IH (S b) (set_loss x learn)) as (learn' & Hr & Hs).
    exists learn'. split; [done |].
    unfold same_but_loss in *. by rewrite Hs at 1.
Qed.

(** The epochs of a fit in best-only mode: the run ends normally, the
    checkpoint holds the best-seen model of these epochs if there is one
    and is as before otherwise, and the live model is the last one
    trained. *)
Lemma run_epochs_best_only (eps : list epoch_data) :
  forall (e : nat) self learn (b : float) (i : nat),
    SaveModelCallback.every_epoch self = false ->
    TrackerCallback.best (SaveModelCallback.tracker self) = Some b ->
    TrackerCallback.idx (SaveModelCallback.tracker self) = Some i ->
    Forall (fun ep => is_Some (metrics ep !! i)) eps ->
    exists self' learn',
      result (run_epochs e eps (self, learn)) = Done (self', learn')
      /\ SaveModelCallback.every_epoch self' = false
      /\ SaveModelCallback.fname self' = SaveModelCallback.fname self
      /\ files learn' !! pth (SaveModelCallback.fname self)
         = match best_seen (TrackerCallback.comp (SaveModelCallback.tracker self))
                           (TrackerCallback.min_delta (SaveModelCallback.tracker self))
                           i b eps with
           | Some m => Some m
           | None => files learn !! pth (SaveModelCallback.fname self)
           end
      /\ model learn' = default (model learn) (trained <$> last eps).
Proof.
  induction eps as [|ep rest IH]; intros e self learn b i He Hb Hi Hall.
  - exists self, learn. by repeat split.
  - inversion Hall as [|? ? [v Hv] Hrest]; subst.
    cbn [run_epochs fst snd].
    destruct (run_batches_save e 0 (batch_losses ep) self (set_epoch (Z.of_nat e) learn))
      as (lb & Hrb & Hsame).
    rewrite Hrb. cbn [fst snd on_after_epoch SaveModel_cb].
    set (l1 := record_row (metrics ep) (set_model (trained ep) lb)).
    assert (Hmon : monitored (SaveModelCallback.tracker self) l1 = Some v).
    { unfold monitored, l1. cbn [recorder values record_row].
      rewrite last_snoc. cbn. by rewrite Hi. }
    pose proof (after_epoch_eq _ _ _ _ Hmon Hb) as Htr.
    assert (Hfiles : files l1 = files learn).
    { unfold l1. rewrite Hsame. reflexivity. }
    destruct (call _ _ _) eqn:Hcall.
    + rewrite (save_best_only _ _ _ He Htr).
      rewrite bool_decide_eq_true_2 by done.
      edestruct (IH (S e)
                  (SaveModelCallback.set_tracker
                     (TrackerCallback.set_new_best true
                        (TrackerCallback.set_best v (SaveModelCallback.tracker self))) self)
                  (save (SaveModelCallback.fname self) l1) v i)
        as (self' & learn' & Hr & He' & Hf' & Hfile & Hmodel); [done.. |].
      rewrite Hr. exists self', learn'.
      split; [done | split; [done | split; [done |]]].
      cbn [best_seen]. rewrite Hv, Hcall.
      split.
      * cbn [SaveModelCallback.set_tracker SaveModelCallback.tracker
          SaveModelCallback.fname TrackerCallback.comp TrackerCallback.min_delta
          TrackerCallback.set_new_best TrackerCallback.set_best] in Hfile.
        rewrite Hfile.
        destruct (best_seen _ _ _ _ rest); [done |].
        rewrite files_save. by rewrite lookup_insert_eq.
      * rewrite Hmodel, (last_cons ep rest). by destruct (last rest).
    + rewrite (save_best_only _ _ _ He Htr).
      rewrite bool_decide_eq_false_2 by done.
      edestruct (IH (S e)
                  (SaveModelCallback.set_tracker
                     (TrackerCallback.set_new_best false (SaveModelCallback.tracker self))
                     self)
                  l1 b i)
        as (self' & learn' & Hr & He' & Hf' & Hfile & Hmodel); [done.. |].
      rewrite Hr. exists self', learn'.
      split; [done | split; [done | split; [done |]]].
      cbn [best_seen]. rewrite Hv, Hcall.
      split.
      * cbn [SaveModelCallback.set_tracker SaveModelCallback.tracker
          SaveModelCallback.fname TrackerCallback.comp TrackerCallback.min_delta
          TrackerCallback.set_new_best] in Hfile.
        by rewrite Hfile, Hfiles.
      * rewrite Hmodel, (last_cons ep rest). by destruct (last rest).
Qed.

Lemma begin_fit_found (tr : TrackerCallback.t) learn (i : nat) :
  index (TrackerCallback.monitor tr) (tail (metric_names (recorder learn))) = Some i ->
  TrackerCallback.begin_fit tr learn
  = Done (TrackerCallback.set_idx i
            (TrackerCallback.set_best
               (if is_np_less (TrackerCallback.comp tr) then infinity
                else neg_infinity) tr)).
Proof.
  intros Hi. unfold TrackerCallback.begin_fit.
  cbn [TrackerCallback.monitor TrackerCallback.comp TrackerCallback.set_best].
  by rewrite (index_mem _ _ _ Hi), Hi.
Qed.

Lemma on_train_end_loads self learn (m : Model) :
  SaveModelCallback.every_epoch self = false ->
  files learn !! pth (SaveModelCallback.fname self) = Some m ->
  SaveModelCallback.on_train_end self learn = Done (self, set_model m learn).
Proof.
  intros He Hm. unfold SaveModelCallback.on_train_end, is_file, load.
  rewrite He, Hm. cbn [negb andb]. by rewrite bool_decide_eq_true_2.
Qed.

Lemma on_train_end_skips self learn :
  SaveModelCallback.every_epoch self = true
  \/ files learn !! pth (SaveModelCallback.fname self) = None ->
  SaveModelCallback.on_train_end self learn = Done (self, learn).
Proof.
  unfold SaveModelCallback.on_train_end, is_file. intros [-> | ->]; [done |].
  rewrite bool_decide_eq_false_2 by (by intros [? ?]).
  by rewrite andb_false_r.
Qed.

(** What [on_train_end] does when it is called: in best-only mode it loads
    the checkpoint stored under the bare [fname] when that file exists;
    when it does not, and in every-epoch mode always, it returns without
    doing anything. *)
Lemma on_train_end_body self learn :
  let r := SaveModelCallback.on_train_end self learn in
  let name := SaveModelCallback.fname self +:+ ".pth" in
  (SaveModelCallback.every_epoch self = false ->
     forall m, files learn !! name = Some m -> r = Done (self, set_model m learn))
  /\ (files learn !! name = None -> r = Done (self, learn))
  /\ (SaveModelCallback.every_epoch self = true -> r = Done (self, learn)).
Proof.
  intros r name. subst r name.
  split; [intros He m Hm; by apply on_train_end_loads |].
  split; [intros Hn; apply on_train_end_skips; by right |].
  intros He; apply on_train_end_skips; by left.
Qed.

(** A fit in best-only mode whose recorder provides the monitored column
    ends normally, with the last model trained in memory: the checkpoint
    holds the best-seen model as soon as one epoch improved, and nothing
    loads it. *)
Lemma fit_best_only self learn (eps : list epoch_data) (i : nat) :
  SaveModelCallback.every_epoch self = false ->
  index (TrackerCallback.monitor (SaveModelCallback.tracker self))
        (tail (metric_names (recorder learn))) = Some i ->
  Forall (fun ep => is_Some (metrics ep !! i)) eps ->
  let c := TrackerCallback.comp (SaveModelCallback.tracker self) in
  let seen :=
    best_seen c (TrackerCallback.min_delta (SaveModelCallback.tracker self)) i
              (if is_np_less c then infinity else neg_infinity) eps in
  exists self' learn',
    result (fit eps self learn) = Done (self', learn')
    /\ model learn' = default (model learn) (trained <$> last eps)
    /\ files learn' !! pth (SaveModelCallback.fname self)
       = match seen with
         | Some m => Some m
         | None => files learn !! pth (SaveModelCallback.fname self)
         end
    /\ (forall m, seen = Some m ->
          SaveModelCallback.on_train_end self' learn'
          = Done (self', set_model m learn')).
Proof.
  intros He Hi Hall c seen.
  unfold fit. cbn [on_begin_fit SaveModel_cb].
  unfold SaveModelCallback.begin_fit. rewrite (begin_fit_found _ _ _ Hi).
  edestruct (run_epochs_best_only eps 0
    (SaveModelCallback.set_tracker
       (TrackerCallback.set_idx i
          (TrackerCallback.set_best
             (if is_np_less c then infinity else neg_infinity)
             (SaveModelCallback.tracker self))) self)
    learn (if is_np_less c then infinity else neg_infinity) i)
    as (self' & learn' & Hr & He' & Hf' & Hfile & Hmodel); [done.. |].
  cbn [SaveModelCallback.set_tracker SaveModelCallback.tracker
       SaveModelCallback.fname TrackerCallback.comp TrackerCallback.min_delta
       TrackerCallback.set_idx TrackerCallback.set_best] in Hfile.
  fold c in Hfile. fold seen in Hfile.
  fold c. rewrite Hr. cbn [result fst snd on_fit_end SaveModel_cb noop].
  cbn [SaveModelCallback.set_tracker SaveModelCallback.fname] in Hf'.
  exists self', learn'. split; [done |]. split; [done |]. split; [done |].
  intros m Hm. apply on_train_end_loads; [done |].
  rewrite Hf', Hfile. by rewrite Hm.
Qed.

End Reload.

(** C5: the reload at the end of the fit does not happen.  In best-only
    mode, over the validation losses 0.5, 0.4, 0.6 the fit ends with the
    model of the third epoch in memory, although the best-seen model is the
    one of the second epoch and the checkpoint holds it: [on_train_end],
    which would load it, is not among the hooks that are called.  The same
    holds of every fit in best-only mode: it ends with the last model
    trained in memory. *)
Theorem reload_never_runs :
  (let callback := SaveModelCallback.__init__ "valid_loss" None 0 "model" false in
   let run := fit (Example.epochs [0.5; 0.4; 0.6]%float) callback Example.learn in
   let self' := (state_of (result run)).1 in
   let learn' := (state_of (result run)).2 in
   trace run = [BeginFit; AfterEpoch 0; AfterEpoch 1; AfterEpoch 2; AfterFit]
   /\ raised (result run) = None
   /\ best_seen np_less (TrackerCallback.min_delta (SaveModelCallback.tracker callback))
                1 infinity (Example.epochs [0.5; 0.4; 0.6]%float) = Some 2
   /\ files learn' !! "model.pth" = Some 2
   /\ model learn' = 3
   /\ model (state_of (SaveModelCallback.on_train_end self' learn')).2 = 2)
  /\ (forall (Model : Type) (self : SaveModelCallback.t) (learn : Learner Model)
             (eps : list epoch_data) (i : nat),
        SaveModelCallback.every_epoch self = false ->
        index (TrackerCallback.monitor (SaveModelCallback.tracker self))
              (tail (metric_names (recorder learn))) = Some i ->
        Forall (fun ep => is_Some (metrics ep !! i)) eps ->
        model (state_of (result (fit eps self learn))).2
        = default (model learn) (trained <$> last eps)).
Proof.
  split.
  - repeat split; vm_compute; reflexivity.
  - intros Model self learn eps i He Hi Hall.
    destruct (fit_best_only self learn eps i He Hi Hall)
      as (self' & learn' & -> & Hmodel & _).
    exact Hmodel.
Qed.

(** ** Reducing the learning rate *)

Section ReduceLR.
Context {Model : Type}.
Implicit Types (self : ReduceLROnPlateau.t) (learn : Learner Model).

(** With a non-zero factor and a learning rate in every group, the loop
    divides them all. *)
Lemma divide_lrs_all (factor : float) (hs : list (gmap string float)) :
  PrimFloat.eqb factor 0 = false ->
  Forall (fun h => is_Some (h !! "lr")) hs ->
  exists hs',
    ReduceLROnPlateau.divide_lrs factor hs = Done hs'
    /\ Forall2 (fun h h' =>
                  exists lr, h !! "lr" = Some lr
                             /\ h' = <["lr" := (lr / factor)%float]> h) hs hs'.
Proof.
  intros Hf Hall. induction Hall as [|h hs [lr Hlr] _ (hs' & Hd & Hrel)].
  - exists []. by split.
  - exists (<["lr" := (lr / factor)%float]> h :: hs').
    cbn [ReduceLROnPlateau.divide_lrs]. unfold truediv.
    rewrite Hlr, Hf, Hd. split; [done |].
    constructor; [by exists lr | done].
Qed.

(** The loop raises nothing but [KeyError] and [ZeroDivisionError]. *)
Lemma divide_lrs_raises (factor : float) (hs : list (gmap string float)) (e : exn) :
  raised (ReduceLROnPlateau.divide_lrs factor hs) = Some e ->
  e = KeyError "lr" \/ e = ZeroDivisionError.
Proof.
  induction hs as [|h hs IH]; [done |].
  cbn [ReduceLROnPlateau.divide_lrs].
  destruct (h !! "lr"); [|intros [= <-]; by left].
  destruct (truediv _ _); [|intros [= <-]; by right].
  by destruct (ReduceLROnPlateau.divide_lrs factor hs).
Qed.

Lemma divide_lrs_no_abort (factor : float) (hs : list (gmap string float)) :
  raised (ReduceLROnPlateau.divide_lrs factor hs) <> Some CancelFitException.
Proof. intros H. by destruct (divide_lrs_raises _ _ _ H). Qed.

Lemma reduce_lr_no_abort self learn :
  raised (ReduceLROnPlateau.after_epoch self learn) <> Some CancelFitException.
Proof.
  unfold ReduceLROnPlateau.after_epoch.
  destruct (TrackerCallback.after_epoch _ _) as [tr|e tr] eqn:Htr.
  - repeat case_match; try done.
    match goal with
    | H : ReduceLROnPlateau.divide_lrs ?f ?hs = Raised _ _ |- _ =>
        pose proof (divide_lrs_no_abort f hs) as Hd; by rewrite H in Hd
    end.
  - unfold TrackerCallback.after_epoch in Htr.
    repeat case_match; simpl; congruence.
Qed.

Lemma reduce_lr_waiting self learn tr w :
  TrackerCallback.after_epoch (ReduceLROnPlateau.tracker self) learn = Done tr ->
  TrackerCallback.new_best tr = Some false ->
  ReduceLROnPlateau.wait self = Some w ->
  ReduceLROnPlateau.after_epoch self learn
  = let self1 := ReduceLROnPlateau.set_tracker tr self in
    if (ReduceLROnPlateau.patience self <=? w + 1)%Z
    then
      match ReduceLROnPlateau.divide_lrs (ReduceLROnPlateau.factor self) (hypers learn) with
      | Raised e hs => Raised e (ReduceLROnPlateau.set_wait (w + 1) self1, set_hypers hs learn)
      | Done hs =>
        let self2 := ReduceLROnPlateau.set_wait 0 self1 in
        match last hs with
        | None => Raised IndexError (self2, set_hypers hs learn)
        | Some h =>
          match h !! "lr" with
          | None => Raised (KeyError "lr") (self2, set_hypers hs learn)
          | Some lr =>
            Done (self2, print (ReduceLROnPlateau.message (epoch learn) lr)
                               (set_hypers hs learn))
          end
        end
      end
    else Done (ReduceLROnPlateau.set_wait (w + 1) self1, learn).
Proof.
  intros Htr Hnew Hw. unfold ReduceLROnPlateau.after_epoch.
  rewrite Htr, Hnew. cbn [ReduceLROnPlateau.set_tracker ReduceLROnPlateau.wait].
  by rewrite Hw.
Qed.

Lemma reduce_lr_run :
  let run := fit (Example.epochs [1.0; 1.0]%float)
                 (ReduceLROnPlateau.__init__ "valid_loss" None 0 1 10)
                 Example.learn in
  trace run = [BeginFit; AfterEpoch 0; AfterEpoch 1; AfterFit]
  /\ raised (result run) = None
  /\ (fun h : gmap string float => h !! "lr") <$> hypers Example.learn
     = [Some 0.1%float; Some 0.1%float]
  /\ (fun h : gmap string float => h !! "lr") <$> hypers (state_of (result run)).2
     = [Some 0.01%float; Some 0.01%float]
  /\ ReduceLROnPlateau.wait (state_of (result run)).1 = Some 0%Z.
Proof. repeat split; vm_compute; reflexivity. Qed.

(** C6: on an epoch that did not improve and on which [wait], once
    incremented, has reached [patience], the hook replaces the learning
    rate of every hyperparameter group by its quotient by [factor] (the
    factor being non-zero and every group having a learning rate), leaves
    the rest of each group alone, and sets [wait] back to 0; the hook never
    raises [CancelFitException], whatever the state it is called in.  With
    patience 1, factor 10 and learning rates of 0.1, the losses 1.0, 1.0
    leave every group at 0.01 after the second epoch and the fit runs to
    its end. *)
Theorem reduce_lr_on_plateau self learn (tr : TrackerCallback.t) (w : Z) :
  TrackerCallback.after_epoch (ReduceLROnPlateau.tracker self) learn = Done tr ->
  TrackerCallback.new_best tr = Some false ->
  ReduceLROnPlateau.wait self = Some w ->
  (w + 1 >= ReduceLROnPlateau.patience self)%Z ->
  PrimFloat.eqb (ReduceLROnPlateau.factor self) 0 = false ->
  Forall (fun h => is_Some (h !! "lr")) (hypers learn) ->
  let r := ReduceLROnPlateau.after_epoch self learn in
  ReduceLROnPlateau.wait (state_of r).1 = Some 0%Z
  /\ Forall2 (fun h h' =>
                exists lr, h !! "lr" = Some lr
                  /\ h' = <["lr" := (lr / ReduceLROnPlateau.factor self)%float]> h)
             (hypers learn) (hypers (state_of r).2)
  /\ (hypers learn <> [] -> raised r = None)
  /\ (forall self0 (learn0 : Learner Model),
        raised (ReduceLROnPlateau.after_epoch self0 learn0) <> Some CancelFitException)
  /\ (let run := fit (Example.epochs [1.0; 1.0]%float)
                     (ReduceLROnPlateau.__init__ "valid_loss" None 0 1 10)
                     Example.learn in
      trace run = [BeginFit; AfterEpoch 0; AfterEpoch 1; AfterFit]
      /\ raised (result run) = None
      /\ (fun h : gmap string float => h !! "lr") <$> hypers Example.learn
         = [Some 0.1%float; Some 0.1%float]
      /\ (fun h : gmap string float => h !! "lr") <$> hypers (state_of (result run)).2
         = [Some 0.01%float; Some 0.01%float]
      /\ ReduceLROnPlateau.wait (state_of (result run)).1 = Some 0%Z).
Proof.
  intros Htr Hnew Hw Hp Hf Hall r. subst r.
  destruct (divide_lrs_all _ _ Hf Hall) as (hs' & Hd & Hrel).
  assert (Hlt : (ReduceLROnPlateau.patience self <=? w + 1)%Z = true)
    by (apply Z.leb_le; lia).
  rewrite (reduce_lr_waiting _ _ _ _ Htr Hnew Hw). cbv zeta.
  rewrite Hlt, Hd.
  split; [|split; [|split; [|split]]].
  - by repeat case_match.
  - by repeat case_match.
  - intros Hne.
    destruct (last hs') as [h'|] eqn:Hlast.
    + destruct (Forall2_lookup_r _ _ _ (pred (length hs')) h' Hrel)
        as (h & _ & lr & _ & ->).
      { by rewrite <- last_lookup. }
      by rewrite lookup_insert_eq.
    + apply last_None in Hlast. subst hs'.
      apply Forall2_nil_inv_r in Hrel. done.
  - apply reduce_lr_no_abort.
  - exact reduce_lr_run.
Qed.

End ReduceLR.

(** ** The monitored metric must exist *)

Section MissingMonitor.
Context {Model : Type}.
Implicit Types (p : policy) (learn : Learner Model).

Lemma raised_as_policy {Self : Type} (inj : Self -> policy)
    (o : outcome (Self * Learner Model)) :
  raised (as_policy inj o) = raised o.
Proof. by destruct o. Qed.

(** [begin_fit] of every tracker-based callback ends as the one of its
    tracker part does. *)
Lemma policy_begin_fit p learn :
  raised (on_begin_fit p learn)
  = raised (TrackerCallback.begin_fit (tracker_of p) learn).
Proof.
  destruct p as [cb|cb|cb|cb]; cbn [on_begin_fit policy_cb dispatch tracker_of];
    rewrite raised_as_policy;
    cbn [on_begin_fit Tracker_cb EarlyStopping_cb SaveModel_cb ReduceLROnPlateau_cb].
  - unfold lift. by destruct (TrackerCallback.begin_fit _ _).
  - unfold EarlyStoppingCallback.begin_fit.
    cbn [EarlyStoppingCallback.tracker EarlyStoppingCallback.set_wait].
    by destruct (TrackerCallback.begin_fit _ _).
  - unfold SaveModelCallback.begin_fit. by destruct (TrackerCallback.begin_fit _ _).
  - unfold ReduceLROnPlateau.begin_fit.
    cbn [ReduceLROnPlateau.tracker ReduceLROnPlateau.set_wait].
    by destruct (TrackerCallback.begin_fit _ _).
Qed.

Lemma begin_fit_raises (tr : TrackerCallback.t) learn :
  raised (TrackerCallback.begin_fit tr learn)
  = if bool_decide (TrackerCallback.monitor tr ∈ tail (metric_names (recorder learn)))
    then None else Some AssertionError.
Proof.
  unfold TrackerCallback.begin_fit.
  cbn [TrackerCallback.monitor TrackerCallback.set_best].
  destruct (mem _ _) eqn:Hm; unfold mem in Hm; rewrite Hm; [|done].
  destruct (mem_index _ _ Hm) as [i ->]. done.
Qed.

Lemma tracker_after_epoch_no_assert (tr : TrackerCallback.t) learn :
  raised (TrackerCallback.after_epoch tr learn) <> Some AssertionError.
Proof. unfold TrackerCallback.after_epoch. by repeat case_match. Qed.

Lemma policy_after_epoch_no_assert p learn :
  raised (on_after_epoch p learn) <> Some AssertionError.
Proof.
  destruct p as [cb|cb|cb|cb]; cbn [on_after_epoch policy_cb dispatch];
    rewrite raised_as_policy;
    cbn [on_after_epoch Tracker_cb EarlyStopping_cb SaveModel_cb ReduceLROnPlateau_cb].
  - pose proof (tracker_after_epoch_no_assert cb learn) as H.
    unfold lift. by destruct (TrackerCallback.after_epoch _ _).
  - pose proof (tracker_after_epoch_no_assert (EarlyStoppingCallback.tracker cb) learn) as H.
    unfold EarlyStoppingCallback.after_epoch.
    destruct (TrackerCallback.after_epoch _ _); [|done].
    by repeat case_match.
  - pose proof (tracker_after_epoch_no_assert (SaveModelCallback.tracker cb) learn) as H.
    unfold SaveModelCallback.after_epoch.
    destruct (SaveModelCallback.every_epoch cb); [done |].
    destruct (TrackerCallback.after_epoch _ _); [|done].
    by repeat case_match.
  - pose proof (tracker_after_epoch_no_assert (ReduceLROnPlateau.tracker cb) learn) as H.
    unfold ReduceLROnPlateau.after_epoch.
    destruct (TrackerCallback.after_epoch _ _); [|done].
    repeat case_match; try done.
    match goal with
    | H : ReduceLROnPlateau.divide_lrs ?f ?hs = Raised ?e _ |- _ =>
        destruct (divide_lrs_raises f hs e) as [-> | ->]; [by rewrite H | done..]
    end.
Qed.

(** C8: when the monitor name is not among the recorder's metric names
    after the first, [begin_fit] of every tracker-based callback raises
    [AssertionError], so that the fit ends there: [begin_fit] is the only
    hook called, whatever the epochs that were to come.  When the name is
    there, [begin_fit] raises nothing.  The hook of an epoch never raises
    that error. *)
Theorem missing_monitor p learn (eps : list epoch_data) :
  TrackerCallback.monitor (tracker_of p) ∉ tail (metric_names (recorder learn)) ->
  raised (on_begin_fit p learn) = Some AssertionError
  /\ trace (fit eps p learn) = [BeginFit]
  /\ raised (result (fit eps p learn)) = Some AssertionError
  /\ (forall learn0 : Learner Model,
        TrackerCallback.monitor (tracker_of p) ∈ tail (metric_names (recorder learn0)) ->
        raised (on_begin_fit p learn0) = None)
  /\ (forall p0 (learn0 : Learner Model),
        raised (on_after_epoch p0 learn0) <> Some AssertionError).
Proof.
  intros Habs.
  assert (Hb : raised (on_begin_fit p learn) = Some AssertionError).
  { rewrite policy_begin_fit, begin_fit_raises. by rewrite bool_decide_eq_false_2. }
  split; [done |].
  unfold fit. destruct (on_begin_fit p learn) as [st|e st]; [done |].
  simpl in Hb. injection Hb as ->.
  split; [done | split; [done | split]].
  - intros learn0 Hin. rewrite policy_begin_fit, begin_fit_raises.
    by rewrite bool_decide_eq_true_2.
  - apply policy_after_epoch_no_assert.
Qed.

End MissingMonitor.

(** ** The theorems at work on the example learner *)

Lemma tracker_update_witness :
  TrackerCallback.best (TrackerCallback.__init__ "valid_loss" None 0) = None
  /\ TrackerCallback.best
       (state_of (TrackerCallback.begin_fit
                    (TrackerCallback.__init__ "valid_loss" None 0) Example.learn))
     = Some infinity
  /\ TrackerCallback.best
       (state_of (TrackerCallback.begin_fit
                    (TrackerCallback.__init__ "accuracy" None 0) Example.learn))
     = Some neg_infinity
  /\ monitored Scenario.tracker0 Scenario.learn1 = Some 0.5%float
  /\ TrackerCallback.best
       (state_of (TrackerCallback.after_epoch Scenario.tracker0 Scenario.learn1))
     = Some 0.5%float
  /\ TrackerCallback.new_best
       (state_of (TrackerCallback.after_epoch Scenario.tracker0 Scenario.learn1))
     = Some true.
Proof.
  assert (Hval : monitored Scenario.tracker0 Scenario.learn1 = Some 0.5%float)
    by reflexivity.
  assert (Hb : TrackerCallback.best Scenario.tracker0 = Some infinity)
    by reflexivity.
  split; [reflexivity |].
  split; [exact (proj1 (proj1 (tracker_update
                   (TrackerCallback.__init__ "valid_loss" None 0) Example.learn))) |].
  split; [exact (proj1 (proj1 (tracker_update
                   (TrackerCallback.__init__ "accuracy" None 0) Example.learn))) |].
  split; [exact Hval |].
  destruct (proj2 (tracker_update Scenario.tracker0 Scenario.learn1)
              0.5%float infinity Hval Hb)
    as (_ & Himp & _).
  apply Himp. reflexivity.
Defined.

Lemma improvement_formula_witness :
  TrackerCallback.min_delta Scenario.tracker0 = (-0.1)%float
  /\ TrackerCallback.new_best
       (state_of (TrackerCallback.after_epoch Scenario.tracker0 Scenario.learn1))
     = Some (0.5 - -0.1 <? infinity)%float.
Proof.
  assert (Hcfg : config Scenario.tracker0
                 = config (TrackerCallback.__init__ "valid_loss" None 0.1))
    by reflexivity.
  assert (Hval : monitored Scenario.tracker0 Scenario.learn1 = Some 0.5%float)
    by reflexivity.
  assert (Hb : TrackerCallback.best Scenario.tracker0 = Some infinity)
    by reflexivity.
  destruct (improvement_formula "valid_loss" None 0.1%float Scenario.tracker0
              Scenario.learn1 0.5%float infinity Hcfg Hval Hb)
    as (Htol & _ & _ & Hless & _).
  split; [exact Htol | apply Hless; reflexivity].
Defined.

Lemma early_stopping_witness :
  EarlyStoppingCallback.wait Scenario.stopper1 = Some 0%Z
  /\ raised (EarlyStoppingCallback.after_epoch Scenario.stopper1 Scenario.learn2)
     = Some CancelFitException
  /\ stdout (state_of (EarlyStoppingCallback.after_epoch
                         Scenario.stopper1 Scenario.learn2)).2
     = [[Lit "No improvement since epoch 0: early stopping"]].
Proof.
  assert (Htr : TrackerCallback.after_epoch
                  (EarlyStoppingCallback.tracker Scenario.stopper1) Scenario.learn2
                = Done (TrackerCallback.mk "valid_loss" np_less (-0)%float
                          (Some 0.5%float) (Some false) (Some 1)))
    by reflexivity.
  assert (Hw : EarlyStoppingCallback.wait Scenario.stopper1 = Some 0%Z)
    by reflexivity.
  destruct (early_stopping Scenario.stopper1 Scenario.learn2 _ 0%Z Htr Hw)
    as (_ & _ & _ & Hnot & _).
  destruct (Hnot eq_refl) as (_ & Habort & _ & Hmsg & _).
  split; [exact Hw | split].
  - apply Habort. vm_compute. discriminate.
  - apply Hmsg. vm_compute. discriminate.
Defined.

Lemma checkpointing_witness :
  files (state_of (SaveModelCallback.after_epoch
                     (SaveModelCallback.__init__ "valid_loss" None 0 "model" true)
                     (set_epoch 3 (set_model 7 Example.learn)))).2
  = {[ "model_3.pth" := 7 ]}.
Proof.
  destruct (checkpointing (SaveModelCallback.__init__ "valid_loss" None 0 "model" true)
              (set_epoch 3 (set_model 7 Example.learn)))
    as (Hevery & _).
  destruct (Hevery eq_refl) as (_ & _ & Hfiles & _).
  exact Hfiles.
Defined.

Lemma reduce_lr_on_plateau_witness :
  ReduceLROnPlateau.wait
    (state_of (ReduceLROnPlateau.after_epoch Scenario.reducer1 Scenario.learn2)).1
  = Some 0%Z
  /\ Forall2 (fun h h' : gmap string float =>
                exists lr, h !! "lr" = Some lr /\ h' = <["lr" := (lr / 10)%float]> h)
             (hypers Scenario.learn2)
             (hypers (state_of (ReduceLROnPlateau.after_epoch
                                  Scenario.reducer1 Scenario.learn2)).2)
  /\ raised (ReduceLROnPlateau.after_epoch Scenario.reducer1 Scenario.learn2) = None.
Proof.
  assert (Htr : TrackerCallback.after_epoch
                  (ReduceLROnPlateau.tracker Scenario.reducer1) Scenario.learn2
                = Done (TrackerCallback.mk "valid_loss" np_less (-0)%float
                          (Some 0.5%float) (Some false) (Some 1)))
    by reflexivity.
  assert (Hall : Forall (fun h : gmap string float => is_Some (h !! "lr"))
                        (hypers Scenario.learn2)).
  { repeat constructor; by eexists. }
  destruct (reduce_lr_on_plateau Scenario.reducer1 Scenario.learn2 _ 0%Z
              Htr eq_refl eq_refl ltac:(vm_compute; discriminate) eq_refl Hall)
    as (Hwait & Hlrs & Hdone & _).
  split; [exact Hwait | split; [exact Hlrs |]].
  apply Hdone. discriminate.
Defined.

Lemma missing_monitor_witness :
  ("accuracy" ∉ tail (metric_names (recorder Example.learn)))
  /\ trace (fit (Example.epochs [1.0; 0.9]%float)
                (EarlyStopping (EarlyStoppingCallback.__init__ "accuracy" None 0 1))
                Example.learn) = [BeginFit]
  /\ raised (result (fit (Example.epochs [1.0; 0.9]%float)
                (EarlyStopping (EarlyStoppingCallback.__init__ "accuracy" None 0 1))
                Example.learn)) = Some AssertionError.
Proof.
  assert (Habs : "accuracy" ∉ tail (metric_names (recorder Example.learn))).
  { apply (bool_decide_unpack _). vm_compute. exact I. }
  destruct (missing_monitor
              (EarlyStopping (EarlyStoppingCallback.__init__ "accuracy" None 0 1))
              Example.learn (Example.epochs [1.0; 0.9]%float) Habs)
    as (_ & Htrace & Hraised & _).
  split; [exact Habs | split; [exact Htrace | exact Hraised]].
Defined.

(** * Further properties of the callbacks *)

(** ** More IEEE 754 facts *)

Section Comparisons.

Lemma is_nan_spec (x : float) : is_nan x = true <-> Prim2SF x = S754_nan.
Proof.
  unfold is_nan. rewrite FloatAxioms.eqb_spec. unfold SFeqb.
  destruct (Prim2SF x) as [s|s| |s m e] eqn:Hx.
  - rewrite SFcompare_refl by done. split; done.
  - rewrite SFcompare_refl by done. split; done.
  - done.
  - rewrite SFcompare_refl by done. split; done.
Qed.

Lemma is_nan_false (x : float) : is_nan x = false <-> Prim2SF x <> S754_nan.
Proof.
  rewrite <- is_nan_spec. destruct (is_nan x); split; congruence.
Qed.

(** A comparison that holds has no NaN on either side. *)
Lemma ltb_not_nan (x y : float) :
  (x <? y)%float = true -> is_nan x = false /\ is_nan y = false.
Proof.
  rewrite ltb_spec, !is_nan_false. unfold SFltb.
  destruct (Prim2SF x), (Prim2SF y); simpl; try done.
Qed.

(** A difference that is a number has numbers on both sides. *)
Lemma sub_not_nan (x y : float) :
  is_nan (x - y)%float = false -> is_nan x = false /\ is_nan y = false.
Proof.
  rewrite !is_nan_false, sub_spec. unfold SF64sub.
  destruct (Prim2SF x), (Prim2SF y); simpl; try done.
Qed.

Lemma is_zero_spec (z : float) :
  is_zero z = true -> exists s, Prim2SF z = S754_zero s.
Proof.
  unfold is_zero. rewrite FloatAxioms.eqb_spec.
  change (Prim2SF zero) with (S754_zero false). unfold SFeqb.
  destruct (Prim2SF z) as [s|s| |s m e]; simpl; try done.
  - by exists s.
  - by destruct s.
  - by destruct s.
Qed.

Lemma SFcompare_sub_zero (x y : spec_float) (s : bool) :
  SFcompare (SFsub prec emax x (S754_zero s)) y = SFcompare x y
  /\ SFcompare y (SFsub prec emax x (S754_zero s)) = SFcompare y x.
Proof.
  destruct x as [sx|sx| |sx mx ex]; simpl; try done.
  destruct sx, s; simpl; destruct y; done.
Qed.

(** Subtracting a zero of either sign changes no comparison. *)
Lemma ltb_sub_zero (x z y : float) :
  is_zero z = true ->
  ((x - z <? y) = (x <? y))%float /\ ((y <? x - z) = (y <? x))%float.
Proof.
  intros [s Hz]%is_zero_spec. rewrite !ltb_spec, sub_spec, Hz.
  unfold SFltb, SF64sub.
  destruct (SFcompare_sub_zero (Prim2SF x) (Prim2SF y) s) as [-> ->]. done.
Qed.

(** Nothing is below minus infinity. *)
Lemma ltb_neg_infinity (x : float) : (x <? neg_infinity)%float = false.
Proof.
  rewrite ltb_spec. change (Prim2SF neg_infinity) with (S754_infinity true).
  unfold SFltb. destruct (Prim2SF x) as [s|s| |s m e]; simpl; try done.
  by destruct s.
Qed.

Lemma is_finite_spec (x : float) :
  is_finite x = true ->
  exists s, Prim2SF x = S754_zero s \/ exists m e, Prim2SF x = S754_finite s m e.
Proof.
  unfold is_finite, is_infinity. intros H.
  apply negb_true_iff, orb_false_iff in H as [Hn Hi].
  apply is_nan_false in Hn.
  rewrite FloatAxioms.eqb_spec, abs_spec in Hi.
  change (Prim2SF infinity) with (S754_infinity false) in Hi.
  destruct (Prim2SF x) as [s|s| |s m e]; simpl in *; try done.
  - exists s. by left.
  - exists s. right. by exists m, e.
Qed.

(** A finite number lies strictly between the infinities. *)
Lemma ltb_finite_infinity (x : float) :
  is_finite x = true ->
  (x <? infinity)%float = true /\ (neg_infinity <? x)%float = true.
Proof.
  intros [s H]%is_finite_spec. rewrite !ltb_spec.
  change (Prim2SF infinity) with (S754_infinity false).
  change (Prim2SF neg_infinity) with (S754_infinity true).
  unfold SFltb. destruct H as [-> | (m & e & ->)]; done.
Qed.

End Comparisons.

(** ** The column of the monitored metric *)

Section Column.
Context {Model : Type}.
Implicit Types (self : TrackerCallback.t) (learn : Learner Model).

(** [l.index(x)] is the first position at which [x] stands. *)
Lemma index_first (x : string) (l : list string) (i : nat) :
  index x l = Some i <->
  l !! i = Some x /\ forall j, j < i -> l !! j <> Some x.
Proof.
  revert i. induction l as [|y l IH]; intros i; simpl.
  - split; [done | by intros [? _]].
  - case_decide as Hy.
    + subst y. split.
      * intros [= <-]. split; [done | lia].
      * intros [Hi Hfirst]. destruct i as [|i]; [done |].
        by destruct (Hfirst 0 ltac:(lia)).
    + destruct (index x l) as [k|] eqn:Hk; simpl.
      * split.
        -- intros [= <-]. destruct (proj1 (IH k) eq_refl) as [Hl Hfirst].
           split; [done |]. intros [|j] Hj; simpl; [congruence |].
           apply Hfirst. lia.
        -- intros [Hi Hfirst]. destruct i as [|i]; simpl in Hi; [congruence |].
           f_equal. assert (Some k = Some i) as [= ->]; [|done].
           apply IH. split; [done |]. intros j Hj. apply (Hfirst (S j)). lia.
      * split; [done |]. intros [Hi Hfirst].
        destruct i as [|i]; simpl in Hi; [congruence |].
        assert (None = Some i) as Habs; [|done].
        apply IH. split; [done |]. intros j Hj. apply (Hfirst (S j)). lia.
Qed.

(** X1: when [begin_fit] returns, [idx] is one less than the first position
    after position 0 at which the monitor name stands in [metric_names];
    position 0 is never looked at. *)
Theorem begin_fit_index self learn (self' : TrackerCallback.t) :
  TrackerCallback.begin_fit self learn = Done self' ->
  exists i,
    TrackerCallback.idx self' = Some i
    /\ metric_names (recorder learn) !! S i = Some (TrackerCallback.monitor self)
    /\ (forall j, 0 < j < S i ->
          metric_names (recorder learn) !! j <> Some (TrackerCallback.monitor self))
    /\ config self' = config self.
Proof.
  unfold TrackerCallback.begin_fit.
  cbn [TrackerCallback.monitor TrackerCallback.set_best].
  destruct (mem _ _); [|done].
  destruct (index _ _) as [i|] eqn:Hi; [|done].
  intros [= <-]. exists i. apply index_first in Hi as [Hl Hfirst].
  rewrite lookup_tail in Hl.
  split; [done | split; [done | split; [|done]]].
  intros [|j] Hj; [lia |]. rewrite <- lookup_tail. apply Hfirst. lia.
Qed.

(** X2: after [begin_fit] has returned, the epoch update raises nothing as
    soon as the last row of the recorder reaches the position [idx]: it
    reads the value there, and the tracker it leaves is ready for the next
    epoch in the same way. *)
Theorem tracker_ready self learn (self' : TrackerCallback.t)
    (learn' : Learner Model) (row : list float) :
  TrackerCallback.begin_fit self learn = Done self' ->
  last (values (recorder learn')) = Some row ->
  (forall i, TrackerCallback.idx self' = Some i -> i < length row) ->
  exists i val tr,
    TrackerCallback.idx self' = Some i
    /\ row !! i = Some val
    /\ TrackerCallback.after_epoch self' learn' = Done tr
    /\ TrackerCallback.idx tr = Some i
    /\ is_Some (TrackerCallback.best tr)
    /\ TrackerCallback.new_best tr
       = Some (call (TrackerCallback.comp self)
                    (val - TrackerCallback.min_delta self)%float
                    (if is_np_less (TrackerCallback.comp self)
                     then infinity else neg_infinity)).
Proof.
  intros Hb Hrow Hlen.
  unfold TrackerCallback.begin_fit in Hb.
  cbn [TrackerCallback.monitor TrackerCallback.set_best] in Hb.
  destruct (mem _ _); [|done].
  destruct (index _ _) as [i|] eqn:Hi; [|done].
  injection Hb as <-.
  destruct (lookup_lt_is_Some_2 row i (Hlen i eq_refl)) as [val Hval].
  unfold TrackerCallback.after_epoch. rewrite Hrow.
  cbn [TrackerCallback.idx TrackerCallback.set_idx TrackerCallback.set_best
       TrackerCallback.best TrackerCallback.comp TrackerCallback.min_delta].
  rewrite Hval. change (PrimFloat.opp infinity) with neg_infinity.
  exists i, val.
  destruct (call _ _ _) eqn:Hcall; eexists; repeat split; try done; by eexists.
Qed.

End Column.

(** ** What counts as an improvement *)

Section Improvement.
Context {Model : Type}.
Implicit Types (self : TrackerCallback.t) (learn : Learner Model).

Lemma config_inv (a b : TrackerCallback.t) :
  config a = config b ->
  TrackerCallback.comp a = TrackerCallback.comp b
  /\ TrackerCallback.min_delta a = TrackerCallback.min_delta b.
Proof. unfold config. by intros [= _ ? ?]. Qed.

(** The default tolerance, as stored: a zero of one sign or the other. *)
Lemma default_min_delta (monitor : string) :
  is_zero (TrackerCallback.min_delta (TrackerCallback.__init__ monitor None 0)) = true.
Proof.
  unfold TrackerCallback.__init__. cbn [TrackerCallback.min_delta].
  by destruct (contains "loss" monitor).
Qed.

(** X3: a tracker built with the default [min_delta] of 0 and no comparator
    is a strict running minimum for a monitor name with "loss" in it and a
    strict running maximum otherwise: the epoch sets a new best exactly
    when the monitored value is below (above) the best so far, a tie or a
    NaN being no improvement. *)
Theorem default_tracker_strict (monitor : string) self learn (val b : float) :
  config self = config (TrackerCallback.__init__ monitor None 0) ->
  monitored self learn = Some val ->
  TrackerCallback.best self = Some b ->
  TrackerCallback.new_best (state_of (TrackerCallback.after_epoch self learn))
  = Some (if contains "loss" monitor then (val <? b)%float else (b <? val)%float).
Proof.
  intros Hcfg Hval Hb. apply config_inv in Hcfg as [Hc Hd].
  pose proof (default_min_delta monitor) as Hz. rewrite <- Hd in Hz.
  destruct (ltb_sub_zero val (TrackerCallback.min_delta self) b Hz) as [Hlt Hgt].
  rewrite (after_epoch_eq _ _ _ _ Hval Hb), Hc.
  unfold TrackerCallback.__init__. cbn [TrackerCallback.comp].
  destruct (contains "loss" monitor); cbn [call].
  - rewrite Hlt. by destruct (val <? b)%float.
  - rewrite Hgt. by destruct (b <? val)%float.
Qed.

(** An update without a monitored value changes nothing. *)
Lemma after_epoch_no_value self learn :
  monitored self learn = None ->
  state_of (TrackerCallback.after_epoch self learn) = self.
Proof.
  unfold monitored, TrackerCallback.after_epoch.
  destruct (last _) as [row|]; [|done]. cbn.
  destruct (TrackerCallback.idx self) as [i|]; [|done]. cbn.
  by intros ->.
Qed.

(** With [np.less] or [np.greater], an improvement has numbers on all
    sides. *)
Lemma improvement_not_nan self (val b : float) :
  TrackerCallback.comp self = np_less \/ TrackerCallback.comp self = np_greater ->
  call (TrackerCallback.comp self) (val - TrackerCallback.min_delta self)%float b = true ->
  is_nan val = false /\ is_nan (TrackerCallback.min_delta self) = false.
Proof.
  intros Hc Hcall. apply sub_not_nan.
  destruct Hc as [Hc | Hc]; rewrite Hc in Hcall; cbn [call] in Hcall;
    by apply ltb_not_nan in Hcall as [? ?].
Qed.

(** One epoch keeps a [best] that is a number. *)
Lemma best_stays_number self learn (val b : float) :
  TrackerCallback.comp self = np_less \/ TrackerCallback.comp self = np_greater ->
  monitored self learn = Some val ->
  TrackerCallback.best self = Some b ->
  is_nan b = false ->
  exists b',
    TrackerCallback.best (state_of (TrackerCallback.after_epoch self learn)) = Some b'
    /\ is_nan b' = false.
Proof.
  intros Hc Hval Hb Hnan. rewrite (after_epoch_eq _ _ _ _ Hval Hb).
  destruct (call _ _ _) eqn:Hcall.
  - destruct (improvement_not_nan self val b Hc Hcall) as [Hv _]. by exists val.
  - by exists b.
Qed.

(** X4: with [np.less] or [np.greater], [best] is never NaN: in every state
    the tracker goes through from [begin_fit] on (called in any state, on
    any recorder, returning or not), [best] is set and is a number.  A
    monitored value or a tolerance that is NaN never makes a new best, and
    an epoch update keeps a [best] that is a number. *)
Theorem best_never_nan self :
  TrackerCallback.comp self = np_less \/ TrackerCallback.comp self = np_greater ->
  (tracked Model self ->
   exists b, TrackerCallback.best self = Some b /\ is_nan b = false)
  /\ (forall learn (val b : float),
        monitored self learn = Some val ->
        TrackerCallback.best self = Some b ->
        is_nan val = true \/ is_nan (TrackerCallback.min_delta self) = true ->
        let self' := state_of (TrackerCallback.after_epoch self learn) in
        TrackerCallback.best self' = Some b
        /\ TrackerCallback.new_best self' = Some false)
  /\ (forall learn (val b : float),
        monitored self learn = Some val ->
        TrackerCallback.best self = Some b ->
        is_nan b = false ->
        exists b',
          TrackerCallback.best (state_of (TrackerCallback.after_epoch self learn))
          = Some b'
          /\ is_nan b' = false).
Proof.
  intros Hc. split; [|split].
  - intros Ht. induction Ht as [self learn | self learn Ht IH].
    + destruct (begin_fit_best self learn) as [-> _].
      eexists. split; [reflexivity |]. by destruct (is_np_less _).
    + assert (Hc' : TrackerCallback.comp self = np_less
                    \/ TrackerCallback.comp self = np_greater).
      { destruct (config_inv _ _ (after_epoch_config self learn)) as [<- _]. exact Hc. }
      destruct (IH Hc') as (b & Hb & Hnan).
      destruct (monitored self learn) as [val|] eqn:Hval.
      * by apply (best_stays_number self learn val b).
      * rewrite (after_epoch_no_value _ _ Hval). by exists b.
  - intros learn val b Hval Hb Hnan self'. subst self'.
    rewrite (after_epoch_eq _ _ _ _ Hval Hb).
    destruct (call _ _ _) eqn:Hcall; [|done].
    destruct (improvement_not_nan self val b Hc Hcall) as [Hv Hd].
    destruct Hnan; congruence.
  - intros learn val b. by apply best_stays_number.
Qed.

(** X5: with the default [min_delta], the first epoch after [begin_fit]
    sets a new best whenever its monitored value is finite. *)
Theorem first_epoch_is_best (monitor : string) self learn self0
    (learn' : Learner Model) (val : float) :
  config self = config (TrackerCallback.__init__ monitor None 0) ->
  TrackerCallback.begin_fit self learn = Done self0 ->
  monitored self0 learn' = Some val ->
  is_finite val = true ->
  let self' := state_of (TrackerCallback.after_epoch self0 learn') in
  TrackerCallback.new_best self' = Some true
  /\ TrackerCallback.best self' = Some val.
Proof.
  intros Hcfg Hbf Hval Hfin self'. subst self'.
  apply config_inv in Hcfg as [Hc Hd].
  pose proof (default_min_delta monitor) as Hz. rewrite <- Hd in Hz.
  destruct (ltb_finite_infinity val Hfin) as [Hup Hdown].
  unfold TrackerCallback.begin_fit in Hbf.
  cbn [TrackerCallback.monitor TrackerCallback.set_best TrackerCallback.comp] in Hbf.
  destruct (mem _ _); [|done]. destruct (index _ _) as [i|]; [|done].
  injection Hbf as <-.
  erewrite after_epoch_eq; [|exact Hval | reflexivity].
  cbn [TrackerCallback.comp TrackerCallback.min_delta TrackerCallback.set_idx
       TrackerCallback.set_best].
  rewrite Hc. unfold TrackerCallback.__init__. cbn [TrackerCallback.comp].
  destruct (contains "loss" monitor); cbn [call is_np_less].
  - destruct (ltb_sub_zero val (TrackerCallback.min_delta self) infinity Hz) as [-> _].
    by rewrite Hup.
  - destruct (ltb_sub_zero val (TrackerCallback.min_delta self) neg_infinity Hz)
      as [_ Heq].
    unfold neg_infinity in *. by rewrite Heq, Hdown.
Qed.

(** X6: a tracker that was given [operator.lt] never records an
    improvement: [begin_fit] sets [best] to minus infinity, below which
    there is nothing, so that every epoch leaves [new_best] false and
    [best] at minus infinity, whatever the monitored value and the
    tolerance. *)
Theorem operator_lt_never_improves self learn self0 (learn' : Learner Model)
    (val : float) :
  TrackerCallback.comp self = operator_lt ->
  TrackerCallback.begin_fit self learn = Done self0 ->
  monitored self0 learn' = Some val ->
  let self' := state_of (TrackerCallback.after_epoch self0 learn') in
  TrackerCallback.new_best self' = Some false
  /\ TrackerCallback.best self' = Some neg_infinity
  /\ TrackerCallback.best self0 = Some neg_infinity
  /\ config self' = config self.
Proof.
  intros Hc Hbf Hval self'. subst self'.
  unfold TrackerCallback.begin_fit in Hbf.
  cbn [TrackerCallback.monitor TrackerCallback.set_best TrackerCallback.comp] in Hbf.
  rewrite Hc in Hbf. cbn [is_np_less operator_lt] in Hbf.
  destruct (mem _ _); [|done]. destruct (index _ _) as [i|]; [|done].
  injection Hbf as <-.
  erewrite after_epoch_eq; [|exact Hval | reflexivity].
  cbn [TrackerCallback.comp TrackerCallback.min_delta TrackerCallback.set_idx
       TrackerCallback.set_best].
  rewrite Hc. cbn [call operator_lt].
  pose proof (ltb_neg_infinity (val - TrackerCallback.min_delta self)%float) as Hlt.
  unfold neg_infinity in *. by rewrite Hlt.
Qed.

End Improvement.

(** ** Checkpoint files *)

Section FileNames.

Lemma length_append (s t : string) :
  String.length (s +:+ t) = String.length s + String.length t.
Proof. induction s as [|a s IH]; [done |]. rewrite append_cons. simpl. by rewrite IH. Qed.

Lemma append_inj_l (s t1 t2 : string) : s +:+ t1 = s +:+ t2 -> t1 = t2.
Proof.
  induction s as [|a s IH]; [done |]. rewrite !append_cons. intros [= H]. by apply IH.
Qed.

Lemma append_inj_r (s1 s2 t : string) : s1 +:+ t = s2 +:+ t -> s1 = s2.
Proof.
  revert s2. induction s1 as [|a s1 IH]; intros [|b s2] H; [done | | |].
  - apply (f_equal String.length) in H. rewrite append_nil, length_append in H.
    simpl in H. lia.
  - apply (f_equal String.length) in H. rewrite append_nil, length_append in H.
    simpl in H. lia.
  - rewrite !append_cons in H. injection H as -> H. f_equal. by apply IH.
Qed.

(** Two integers are printed alike only when they are equal. *)
Lemma str_int_inj (a b : Z) : str_int a = str_int b -> a = b.
Proof.
  unfold str_int. intros H. apply to_int_inj.
  assert (Hnn : forall z, Z.to_int z <> Decimal.Pos Decimal.Nil
                          /\ Z.to_int z <> Decimal.Neg Decimal.Nil).
  { intros [|q|q]; simpl; split; try done; intros [= Hq];
      by apply (Unsigned.to_uint_nonnil q). }
  destruct (Hnn a) as [Ha1 Ha2], (Hnn b) as [Hb1 Hb2].
  pose proof (NilZero.isi _ Ha1 Ha2) as Ia.
  pose proof (NilZero.isi _ Hb1 Hb2) as Ib.
  rewrite H in Ia. congruence.
Qed.

(** The checkpoints of two epochs are two files. *)
Lemma epoch_file_inj (fname : string) (a b : Z) :
  pth (fname +:+ "_" +:+ str_int a) = pth (fname +:+ "_" +:+ str_int b) -> a = b.
Proof.
  unfold pth. intros H. apply append_inj_r, append_inj_l, append_inj_l in H.
  by apply str_int_inj.
Qed.

End FileNames.

Section Files.
Context {Model : Type}.
Implicit Types (self : SaveModelCallback.t) (learn : Learner Model).

(** X7: the epoch hook writes one file at most: the checkpoint of the
    epoch in every-epoch mode, the bare checkpoint in best-only mode.  Any
    other file is as it was, however the hook ends, and so are the live
    model, the hyperparameters and the printed lines. *)
Theorem save_model_frame self learn (name : string) :
  name <> pth (if SaveModelCallback.every_epoch self
               then SaveModelCallback.fname self +:+ "_" +:+ str_int (epoch learn)
               else SaveModelCallback.fname self) ->
  let learn' := (state_of (SaveModelCallback.after_epoch self learn)).2 in
  files learn' !! name = files learn !! name
  /\ model learn' = model learn
  /\ hypers learn' = hypers learn
  /\ stdout learn' = stdout learn.
Proof.
  intros Hname learn'. subst learn'. unfold SaveModelCallback.after_epoch.
  destruct (SaveModelCallback.every_epoch self).
  - cbn [state_of snd]. rewrite files_save. by rewrite lookup_insert_ne.
  - destruct (TrackerCallback.after_epoch _ _) as [tr|e tr]; [|done].
    destruct (TrackerCallback.new_best tr) as [[|]|]; try done.
    cbn [state_of snd]. rewrite files_save. by rewrite lookup_insert_ne.
Qed.

(** X8: in every-epoch mode the epochs of a fit all end normally, with the
    callback as it was, and each epoch's model is kept in its own file:
    after the run, the file of the [k]-th epoch holds the model trained by
    that epoch, no later epoch having overwritten it, and no other file
    has changed. *)
Theorem every_epoch_keeps_all (eps : list epoch_data) (e : nat) self learn :
  SaveModelCallback.every_epoch self = true ->
  exists learn',
    result (run_epochs e eps (self, learn)) = Done (self, learn')
    /\ (forall k ep, eps !! k = Some ep ->
          files learn' !! pth (SaveModelCallback.fname self +:+ "_"
                               +:+ str_int (Z.of_nat (e + k)))
          = Some (trained ep))
    /\ (forall name,
          (forall k, k < length eps ->
             name <> pth (SaveModelCallback.fname self +:+ "_"
                          +:+ str_int (Z.of_nat (e + k)))) ->
          files learn' !! name = files learn !! name).
Proof.
  intros He. revert e learn.
  induction eps as [|ep rest IH]; intros e learn.
  - exists learn. by repeat split.
  - cbn [run_epochs fst snd].
    destruct (run_batches_save e 0 (batch_losses ep) self (set_epoch (Z.of_nat e) learn))
      as (lb & Hrb & Hsame).
    rewrite Hrb. cbn [fst snd on_after_epoch SaveModel_cb].
    set (l1 := record_row (metrics ep) (set_model (trained ep) lb)).
    assert (Hep : epoch l1 = Z.of_nat e) by (unfold l1; by rewrite Hsame).
    assert (Hfl : files l1 = files learn) by (unfold l1; by rewrite Hsame).
    rewrite (save_every_epoch _ _ He), Hep.
    set (name0 := SaveModelCallback.fname self +:+ "_" +:+ str_int (Z.of_nat e)).
    destruct (IH (S e) (save name0 l1)) as (learn' & Hr & Hkeep & Hframe).
    rewrite Hr. exists learn'. split; [done |]. split.
    + intros [|k] ep' Hk.
      * injection Hk as <-. rewrite Nat.add_0_r. fold name0.
        rewrite Hframe.
        -- rewrite files_save. by rewrite lookup_insert_eq.
        -- intros k _ Heq. apply epoch_file_inj in Heq. lia.
      * replace (e + S k) with (S e + k) by lia. by apply Hkeep.
    + intros name Hname. rewrite Hframe.
      * rewrite files_save, lookup_insert_ne; [by rewrite Hfl |].
        intros <-. apply (Hname 0); [simpl; lia |]. by rewrite Nat.add_0_r.
      * intros k Hk. replace (S e + k) with (e + S k) by lia.
        apply Hname. simpl. lia.
Qed.

End Files.

(** ** Whole runs *)

Section Batches.
Context {Model : Type}.

Lemma imap_batches (e b : nat) (x : float) (l : list float) :
  imap (fun j _ => AfterBatch e (b + j)) (x :: l)
  = AfterBatch e b :: imap (fun j _ => AfterBatch e (S b + j)) l.
Proof.
  rewrite imap_cons, Nat.add_0_r. f_equal.
  apply imap_ext. intros j y _. simpl. f_equal. lia.
Qed.

Lemma same_but_loss_set (y : float) (l l' : Learner Model) :
  same_but_loss (set_loss y l) l' -> same_but_loss l l'.
Proof. unfold same_but_loss. by intros ->. Qed.

(** A callback without a batch hook lets the batches pass, whatever the
    losses. *)
Lemma run_batches_noop {Self : Type} {cb : @Callback Model Self}
    (Hnoop : forall s l, on_after_batch s l = Done (s, l))
    (e b : nat) (losses : list float) (s : Self) (l : Learner Model) :
  exists l',
    result (run_batches e b losses (s, l)) = Done (s, l')
    /\ same_but_loss l l'.
Proof.
  revert b l. induction losses as [|x losses IH]; intros b l.
  - exists l. split; [done | by destruct l].
  - cbn [run_batches fst snd]. rewrite Hnoop.
    destruct (IH (S b) (set_loss x l)) as (l' & Hr & Hs).
    exists l'. split; [done |]. by apply (same_but_loss_set x).
Qed.

(** X9: during the batches of an epoch the NaN guard calls nothing off
    while the losses are finite, and calls the fit off at the first loss
    that is not: the hook has then run once for each batch up to that one
    and for none after it, and the callback and the learner are as they
    were but for the batch loss. *)
Theorem first_bad_loss_aborts (e b : nat) (good rest : list float) (x : float)
    (self : TerminateOnNaNCallback.t) (learn : Learner Model) :
  Forall (fun y => TerminateOnNaNCallback.isinf y
                   || TerminateOnNaNCallback.isnan y = false) good ->
  (let r := run_batches e b good (self, learn) in
   raised (result r) = None
   /\ same_but_loss learn (state_of (result r)).2
   /\ trace r = imap (fun j _ => AfterBatch e (b + j)) good)
  /\ (TerminateOnNaNCallback.isinf x || TerminateOnNaNCallback.isnan x = true ->
      let r := run_batches e b (good ++ x :: rest) (self, learn) in
      result r = Raised CancelFitException (self, set_loss x learn)
      /\ trace r = imap (fun j _ => AfterBatch e (b + j)) (good ++ [x])).
Proof.
  intros Hgood. revert b learn.
  assert (Hstep : forall (y : float) (l : Learner Model),
            TerminateOnNaNCallback.after_batch self (set_loss y l)
            = if TerminateOnNaNCallback.isinf y || TerminateOnNaNCallback.isnan y
              then Raised CancelFitException (self, set_loss y l)
              else Done (self, set_loss y l)) by done.
  induction Hgood as [|y good Hy _ IH]; intros b learn.
  - split.
    + split; [done | split; [by destruct learn | done]].
    + intros Hx. cbn [app run_batches fst snd on_after_batch TerminateOnNaN_cb].
      rewrite Hstep, Hx. split; [done |]. cbn. by rewrite Nat.add_0_r.
  - destruct (IH (S b) (set_loss y learn)) as [(Hn & Hs & Ht) Hbad].
    split.
    + cbn [run_batches fst snd on_after_batch TerminateOnNaN_cb].
      rewrite Hstep, Hy. cbn [trace result]. split; [done |]. split.
      * by apply (same_but_loss_set y).
      * rewrite imap_batches. by f_equal.
    + intros Hx. destruct (Hbad Hx) as [Hr Ht'].
      rewrite <- app_comm_cons.
      cbn [run_batches fst snd on_after_batch TerminateOnNaN_cb].
      rewrite Hstep, Hy. cbn [trace result]. split; [done |].
      rewrite <- app_comm_cons, imap_batches. by f_equal.
Qed.

End Batches.

Section Patience.
Context {Model : Type}.

Lemma tracker_after_epoch_no_cancel (tr : TrackerCallback.t) (learn : Learner Model) :
  raised (TrackerCallback.after_epoch tr learn) <> Some CancelFitException.
Proof. unfold TrackerCallback.after_epoch. by repeat case_match. Qed.

(** X10: between the epochs of a fit [wait] stays within bounds.  Starting
    from a [wait] that is 0 or below [patience] (as [begin_fit] leaves it),
    the epochs leave a [wait] of 0 or below [patience] when they all return,
    and a [wait] of at least 1 that has reached [patience] when the abort
    signal ends them; [patience] itself never changes. *)
Theorem wait_within_patience (eps : list epoch_data) (e : nat)
    (self : EarlyStoppingCallback.t) (learn : Learner Model) (w : Z) :
  EarlyStoppingCallback.wait self = Some w ->
  (w = 0 \/ 0 < w < EarlyStoppingCallback.patience self)%Z ->
  let r := run_epochs e eps (self, learn) in
  let self' := (state_of (result r)).1 in
  exists w',
    EarlyStoppingCallback.wait self' = Some w'
    /\ EarlyStoppingCallback.patience self' = EarlyStoppingCallback.patience self
    /\ (raised (result r) = None ->
        (w' = 0 \/ 0 < w' < EarlyStoppingCallback.patience self)%Z)
    /\ (raised (result r) = Some CancelFitException ->
        (1 <= w' /\ EarlyStoppingCallback.patience self <= w')%Z).
Proof.
  revert e self learn w. induction eps as [|ep rest IH]; intros e self learn w Hw Hb.
  - exists w. cbn. by repeat split.
  - cbn [run_epochs fst snd].
    destruct (run_batches_noop (cb := EarlyStopping_cb) (fun s l => eq_refl)
                e 0 (batch_losses ep) self (set_epoch (Z.of_nat e) learn))
      as (lb & Hrb & _).
    rewrite Hrb. cbn [fst snd on_after_epoch EarlyStopping_cb].
    set (l1 := record_row (metrics ep) (set_model (trained ep) lb)).
    destruct (TrackerCallback.after_epoch (EarlyStoppingCallback.tracker self) l1)
      as [tr|ex tr] eqn:Htr.
    + destruct (after_epoch_Done _ _ _ Htr) as (val & b & _ & _ & Hnew).
      destruct (call _ _ _).
      * rewrite (stopper_improved _ _ _ Htr Hnew).
        destruct (IH (S e) (EarlyStoppingCallback.set_wait 0
                              (EarlyStoppingCallback.set_tracker tr self)) l1 0%Z)
          as (w' & H1 & H2 & H3 & H4); [done | by left |].
        exists w'. cbn [trace result].
        split; [exact H1 | split; [exact H2 | split; [exact H3 | exact H4]]].
      * rewrite (stopper_waiting _ _ _ _ Htr Hnew Hw). cbv zeta.
        destruct (Z.leb_spec (EarlyStoppingCallback.patience self) (w + 1)) as [Hp|Hp].
        -- exists (w + 1)%Z. cbn. repeat split; try done; lia.
        -- destruct (IH (S e) (EarlyStoppingCallback.set_wait (w + 1)
                                 (EarlyStoppingCallback.set_tracker tr self)) l1 (w + 1)%Z)
             as (w' & H1 & H2 & H3 & H4); [done | cbn; lia |].
           exists w'. cbn [trace result].
           split; [exact H1 | split; [exact H2 | split; [exact H3 | exact H4]]].
    + pose proof (tracker_after_epoch_no_cancel (EarlyStoppingCallback.tracker self) l1)
        as Hnc.
      rewrite Htr in Hnc. cbn in Hnc.
      unfold EarlyStoppingCallback.after_epoch. rewrite Htr.
      exists w. cbn. repeat split; try done; by intros [= ->].
Qed.

End Patience.

(** ** The hyperparameter groups *)

Section Groups.
Context {Model : Type}.
Implicit Types (self : ReduceLROnPlateau.t) (learn : Learner Model).

Lemma lr_only_refl (h : gmap string float) : lr_only h h.
Proof. by split. Qed.

Lemma lr_only_insert (h : gmap string float) (lr q : float) :
  h !! "lr" = Some lr -> lr_only h (<["lr" := q]> h).
Proof.
  intros Hlr. split.
  - intros k Hk. by rewrite lookup_insert_ne.
  - rewrite lookup_insert_eq, Hlr. split; by eexists.
Qed.

Lemma divide_lrs_frame (factor : float) (hs : list (gmap string float)) :
  Forall2 lr_only hs (state_of (ReduceLROnPlateau.divide_lrs factor hs)).
Proof.
  induction hs as [|h hs IH]; [constructor |].
  cbn [ReduceLROnPlateau.divide_lrs].
  destruct (h !! "lr") as [lr|] eqn:Hlr.
  - destruct (truediv lr factor) as [q|].
    + destruct (ReduceLROnPlateau.divide_lrs factor hs); cbn in *;
        constructor; try done; by eapply lr_only_insert.
    + cbn. apply Forall2_same_length_lookup_2; [done |].
      intros i x y Hx Hy. assert (x = y) as -> by congruence. apply lr_only_refl.
  - cbn. apply Forall2_same_length_lookup_2; [done |].
    intros i x y Hx Hy. assert (x = y) as -> by congruence. apply lr_only_refl.
Qed.

Lemma Forall2_lr_only_refl (hs : list (gmap string float)) : Forall2 lr_only hs hs.
Proof. induction hs; constructor; [apply lr_only_refl | done]. Qed.

End Groups.

Section Plateau.
Context {Model : Type}.
Implicit Types (self : ReduceLROnPlateau.t) (learn : Learner Model).

Lemma reducer_improved self learn tr :
  TrackerCallback.after_epoch (ReduceLROnPlateau.tracker self) learn = Done tr ->
  TrackerCallback.new_best tr = Some true ->
  ReduceLROnPlateau.after_epoch self learn
  = Done (ReduceLROnPlateau.set_wait 0 (ReduceLROnPlateau.set_tracker tr self), learn).
Proof.
  intros Htr Hnew. unfold ReduceLROnPlateau.after_epoch. by rewrite Htr, Hnew.
Qed.

(** X11: however the epoch hook ends, it keeps the number and the order of
    the hyperparameter groups and, in each group, every entry but the
    learning rate (a momentum, a weight decay); it adds no learning rate to
    a group that has none.  The live model, the files, [patience] and
    [factor] are left alone. *)
Theorem reduce_lr_frame self learn :
  let st := state_of (ReduceLROnPlateau.after_epoch self learn) in
  Forall2 lr_only (hypers learn) (hypers st.2)
  /\ model st.2 = model learn
  /\ files st.2 = files learn
  /\ ReduceLROnPlateau.patience st.1 = ReduceLROnPlateau.patience self
  /\ ReduceLROnPlateau.factor st.1 = ReduceLROnPlateau.factor self.
Proof.
  cbv zeta. unfold ReduceLROnPlateau.after_epoch.
  pose proof (Forall2_lr_only_refl (hypers learn)) as Hrefl.
  destruct (TrackerCallback.after_epoch _ _) as [tr|ex tr]; [|done].
  destruct (TrackerCallback.new_best tr) as [[|]|]; [done | | done].
  cbn [ReduceLROnPlateau.set_tracker ReduceLROnPlateau.wait].
  destruct (ReduceLROnPlateau.wait self) as [w|]; [|done].
  cbn [ReduceLROnPlateau.set_wait ReduceLROnPlateau.patience ReduceLROnPlateau.factor].
  destruct (_ <=? _)%Z; [|done].
  pose proof (divide_lrs_frame (ReduceLROnPlateau.factor self) (hypers learn)) as Hd.
  destruct (ReduceLROnPlateau.divide_lrs _ _) as [hs|ex hs]; cbn in Hd; [|done].
  destruct (last hs) as [h|]; [|done].
  by destruct (h !! "lr").
Qed.

(** X12: when a group has no learning rate, a reduction stops at it with a
    [KeyError]: the groups before it have been divided already and stay so,
    that group and the ones after it are untouched, and [wait] keeps its
    incremented value instead of going back to 0. *)
Theorem reduce_lr_missing_lr self learn (tr : TrackerCallback.t) (w : Z)
    (hs1 hs2 : list (gmap string float)) (h : gmap string float) :
  TrackerCallback.after_epoch (ReduceLROnPlateau.tracker self) learn = Done tr ->
  TrackerCallback.new_best tr = Some false ->
  ReduceLROnPlateau.wait self = Some w ->
  (w + 1 >= ReduceLROnPlateau.patience self)%Z ->
  PrimFloat.eqb (ReduceLROnPlateau.factor self) 0 = false ->
  hypers learn = (hs1 ++ h :: hs2)%list ->
  Forall (fun g => is_Some (g !! "lr")) hs1 ->
  h !! "lr" = None ->
  let r := ReduceLROnPlateau.after_epoch self learn in
  raised r = Some (KeyError "lr")
  /\ ReduceLROnPlateau.wait (state_of r).1 = Some (w + 1)%Z
  /\ stdout (state_of r).2 = stdout learn
  /\ exists hs1',
       hypers (state_of r).2 = (hs1' ++ h :: hs2)%list
       /\ Forall2 (fun g g' =>
                     exists lr, g !! "lr" = Some lr
                       /\ g' = <["lr" := (lr / ReduceLROnPlateau.factor self)%float]> g)
                  hs1 hs1'.
Proof.
  intros Htr Hnew Hw Hp Hf Hhs Hall Hh r. subst r.
  rewrite (reduce_lr_waiting _ _ _ _ Htr Hnew Hw). cbv zeta.
  rewrite (proj2 (Z.leb_le _ _)) by lia. rewrite Hhs.
  assert (Hdiv : exists hs1',
            ReduceLROnPlateau.divide_lrs (ReduceLROnPlateau.factor self)
              (hs1 ++ h :: hs2)%list
            = Raised (KeyError "lr") (hs1' ++ h :: hs2)%list
            /\ Forall2 (fun g g' =>
                 exists lr, g !! "lr" = Some lr
                   /\ g' = <["lr" := (lr / ReduceLROnPlateau.factor self)%float]> g)
               hs1 hs1').
  { clear Hhs. induction Hall as [|g hs1 [lr Hlr] _ (hs1' & Hd & Hrel)].
    - exists []. cbn. rewrite Hh. by split.
    - exists (<["lr" := (lr / ReduceLROnPlateau.factor self)%float]> g :: hs1').
      rewrite <- app_comm_cons. cbn [ReduceLROnPlateau.divide_lrs].
      unfold truediv. rewrite Hlr, Hf, Hd. split; [done |].
      constructor; [by exists lr | done]. }
  destruct Hdiv as (hs1' & -> & Hrel).
  cbn. split; [done | split; [done | split; [done |]]]. by exists hs1'.
Qed.

End Plateau.

Section PlateauRuns.
Context {Model : Type}.
Implicit Types (self : ReduceLROnPlateau.t) (learn : Learner Model).

(** One epoch of the plateau callback, in a state in which nothing is
    missing: the hook returns, and nothing is missing afterwards. *)
Lemma reducer_step self learn (b v : float) (i : nat) (w : Z) :
  TrackerCallback.best (ReduceLROnPlateau.tracker self) = Some b ->
  TrackerCallback.idx (ReduceLROnPlateau.tracker self) = Some i ->
  ReduceLROnPlateau.wait self = Some w ->
  monitored (ReduceLROnPlateau.tracker self) learn = Some v ->
  PrimFloat.eqb (ReduceLROnPlateau.factor self) 0 = false ->
  Forall (fun h => is_Some (h !! "lr")) (hypers learn) ->
  hypers learn <> [] ->
  exists self' learn',
    ReduceLROnPlateau.after_epoch self learn = Done (self', learn')
    /\ is_Some (TrackerCallback.best (ReduceLROnPlateau.tracker self'))
    /\ TrackerCallback.idx (ReduceLROnPlateau.tracker self') = Some i
    /\ is_Some (ReduceLROnPlateau.wait self')
    /\ ReduceLROnPlateau.factor self' = ReduceLROnPlateau.factor self
    /\ length (hypers learn') = length (hypers learn)
    /\ Forall (fun h => is_Some (h !! "lr")) (hypers learn').
Proof.
  intros Hb Hi Hw Hv Hf Hall Hne.
  pose proof (after_epoch_eq _ _ _ _ Hv Hb) as Htr.
  destruct (call _ _ _).
  - rewrite (reducer_improved _ _ _ Htr eq_refl).
    do 2 eexists. split; [done |]. cbn. repeat split; try done; by eexists.
  - rewrite (reduce_lr_waiting _ _ _ _ Htr eq_refl Hw). cbv zeta.
    destruct (_ <=? _)%Z.
    + destruct (divide_lrs_all _ _ Hf Hall) as (hs' & -> & Hrel).
      pose proof (Forall2_length _ _ _ Hrel) as Hlen.
      assert (Hall' : Forall (fun h => is_Some (h !! "lr")) hs').
      { apply Forall_forall. intros h' Hin.
        apply list_elem_of_lookup in Hin as [k Hk].
        destruct (Forall2_lookup_r _ _ _ _ _ Hrel Hk) as (h & _ & lr & _ & ->).
        rewrite lookup_insert_eq. by eexists. }
      destruct (last hs') as [h'|] eqn:Hlast.
      * assert (Hin : h' ∈ hs').
        { rewrite last_lookup in Hlast. by eapply list_elem_of_lookup_2. }
        destruct (proj1 (Forall_forall _ _) Hall' h' Hin) as [lr' ->].
        do 2 eexists. split; [done |]. cbn.
        repeat split; try done; by eexists.
      * apply last_None in Hlast. subst hs'.
        destruct (hypers learn); [done | discriminate].
    + do 2 eexists. split; [done |]. cbn. repeat split; try done; by eexists.
Qed.

(** X13: a fit is never cut short by the plateau callback.  When the
    recorder provides the monitored column at every epoch, [factor] is not
    zero and every hyperparameter group has a learning rate, the hook of
    every epoch is called and returns; the groups are as many at the end as
    at the start, each with a learning rate. *)
Theorem reduce_lr_never_stops (eps : list epoch_data) (e : nat) self learn
    (b : float) (i : nat) (w : Z) :
  TrackerCallback.best (ReduceLROnPlateau.tracker self) = Some b ->
  TrackerCallback.idx (ReduceLROnPlateau.tracker self) = Some i ->
  ReduceLROnPlateau.wait self = Some w ->
  Forall (fun ep => is_Some (metrics ep !! i)) eps ->
  PrimFloat.eqb (ReduceLROnPlateau.factor self) 0 = false ->
  Forall (fun h => is_Some (h !! "lr")) (hypers learn) ->
  hypers learn <> [] ->
  let r := run_epochs e eps (self, learn) in
  raised (result r) = None
  /\ (forall k, k < length eps -> AfterEpoch (e + k) ∈ trace r)
  /\ length (hypers (state_of (result r)).2) = length (hypers learn)
  /\ Forall (fun h => is_Some (h !! "lr")) (hypers (state_of (result r)).2).
Proof.
  revert e self learn b w.
  induction eps as [|ep rest IH]; intros e self learn b w Hb Hi Hw Hrows Hf Hall Hne.
  - cbn. repeat split; try done. intros k Hk. lia.
  - inversion Hrows as [|? ? [v Hv] Hrest]; subst.
    cbn [run_epochs fst snd].
    destruct (run_batches_noop (cb := ReduceLROnPlateau_cb) (fun s l => eq_refl)
                e 0 (batch_losses ep) self (set_epoch (Z.of_nat e) learn))
      as (lb & Hrb & Hsame).
    rewrite Hrb. cbn [fst snd on_after_epoch ReduceLROnPlateau_cb].
    set (l1 := record_row (metrics ep) (set_model (trained ep) lb)).
    assert (Hhy : hypers l1 = hypers learn) by (unfold l1; by rewrite Hsame).
    assert (Hmon : monitored (ReduceLROnPlateau.tracker self) l1 = Some v).
    { unfold monitored, l1. cbn [recorder values record_row].
      rewrite last_snoc. cbn. by rewrite Hi. }
    destruct (reducer_step self l1 b v i w Hb Hi Hw Hmon Hf)
      as (self' & learn' & -> & [b' Hb'] & Hi' & [w' Hw'] & Hf' & Hlen & Hall');
      [by rewrite Hhy.. |].
    rewrite Hhy in Hlen.
    destruct (IH (S e) self' learn' b' w' Hb' Hi' Hw' Hrest)
      as (Hr & Htr & Hlen' & Hall'').
    { by rewrite Hf'. }
    { done. }
    { intros Hnil. rewrite Hnil in Hlen. destruct (hypers learn); [done | discriminate]. }
    cbn [trace result]. split; [exact Hr |]. split; [|split].
    + intros [|k] Hk.
      * rewrite Nat.add_0_r. apply elem_of_app. right. apply list_elem_of_here.
      * apply elem_of_app. right. apply list_elem_of_further.
        replace (e + S k) with (S e + k) by lia. apply Htr. simpl in Hk. lia.
    + by rewrite Hlen'.
    + exact Hall''.
Qed.

End PlateauRuns.

(** ** Failures and fresh starts *)

Section Failures.
Context {Model : Type}.

(** X14: an epoch update that raises has changed nothing in the tracker.
    It raises [IndexError] when the recorder has no row yet or the last row
    is too short for [idx], and [AttributeError] when [begin_fit] has not
    set [idx] or [best]; it raises nothing else. *)
Theorem failed_update_changes_nothing (self : TrackerCallback.t)
    (learn : Learner Model) (e : exn) :
  raised (TrackerCallback.after_epoch self learn) = Some e ->
  state_of (TrackerCallback.after_epoch self learn) = self
  /\ (e = IndexError \/ e = AttributeError "idx" \/ e = AttributeError "best")
  /\ (e = IndexError ->
      values (recorder learn) = []
      \/ exists row i, last (values (recorder learn)) = Some row
                       /\ TrackerCallback.idx self = Some i
                       /\ length row <= i)
  /\ (e = AttributeError "idx" -> TrackerCallback.idx self = None)
  /\ (e = AttributeError "best" -> TrackerCallback.best self = None).
Proof.
  unfold TrackerCallback.after_epoch.
  destruct (last (values (recorder learn))) as [row|] eqn:Hlast.
  - destruct (TrackerCallback.idx self) as [i|] eqn:Hi.
    + destruct (row !! i) as [val|] eqn:Hval.
      * destruct (TrackerCallback.best self) as [b|] eqn:Hb.
        -- by destruct (call _ _ _).
        -- intros [= <-]. repeat split; try done; auto.
      * intros [= <-]. apply lookup_ge_None in Hval.
        repeat split; try done; auto.
        intros _. right. by exists row, i.
    + intros [= <-]. repeat split; try done; auto.
  - intros [= <-]. apply last_None in Hlast.
    repeat split; try done; auto.
Qed.


End Failures.

(** ** Streaks *)

Section Streaks.
Context {Model : Type}.
Implicit Types (self : EarlyStoppingCallback.t) (learn : Learner Model).

Lemma epoch_hooks_app (t1 t2 : list event) :
  epoch_hooks (t1 ++ t2) = (epoch_hooks t1 ++ epoch_hooks t2)%list.
Proof.
  induction t1 as [|ev t1 IH]; [done |].
  destruct ev; cbn [app epoch_hooks]; by rewrite IH.
Qed.

(** The batches of an epoch call no epoch hook. *)
Lemma epoch_hooks_batches {Self : Type} {cb : @Callback Model Self}
    (e b : nat) (losses : list float) (st : Self * Learner Model) :
  epoch_hooks (trace (run_batches e b losses st)) = [].
Proof.
  revert b st. induction losses as [|x losses IH]; intros b st; [done |].
  cbn [run_batches]. destruct (on_after_batch _ _); [|done].
  cbn [trace epoch_hooks]. apply IH.
Qed.

(** One epoch of the early-stopping callback in a run. *)
Lemma stopper_epoch (e : nat) (ep : epoch_data) (rest : list epoch_data)
    self learn (b v : float) (i : nat) :
  TrackerCallback.best (EarlyStoppingCallback.tracker self) = Some b ->
  TrackerCallback.idx (EarlyStoppingCallback.tracker self) = Some i ->
  metrics ep !! i = Some v ->
  exists l1,
    epoch l1 = Z.of_nat e
    /\ stdout l1 = stdout learn
    /\ TrackerCallback.after_epoch (EarlyStoppingCallback.tracker self) l1
       = (if call (TrackerCallback.comp (EarlyStoppingCallback.tracker self))
                  (v - TrackerCallback.min_delta (EarlyStoppingCallback.tracker self))%float b
          then Done (TrackerCallback.set_new_best true
                       (TrackerCallback.set_best v (EarlyStoppingCallback.tracker self)))
          else Done (TrackerCallback.set_new_best false
                       (EarlyStoppingCallback.tracker self)))
    /\ run_epochs e (ep :: rest) (self, learn)
       = match EarlyStoppingCallback.after_epoch self l1 with
         | Raised ex st =>
             {| trace := (trace (run_batches e 0 (batch_losses ep)
                                   (self, set_epoch (Z.of_nat e) learn))
                          ++ [AfterEpoch e])%list;
                result := Raised ex st |}
         | Done st =>
             {| trace := (trace (run_batches e 0 (batch_losses ep)
                                   (self, set_epoch (Z.of_nat e) learn))
                          ++ AfterEpoch e :: trace (run_epochs (S e) rest st))%list;
                result := result (run_epochs (S e) rest st) |}
         end.
Proof.
  intros Hb Hi Hv.
  destruct (run_batches_noop (cb := EarlyStopping_cb) (fun s l => eq_refl)
              e 0 (batch_losses ep) self (set_epoch (Z.of_nat e) learn))
    as (lb & Hrb & Hsame).
  exists (record_row (metrics ep) (set_model (trained ep) lb)).
  split; [by rewrite Hsame |]. split; [by rewrite Hsame |]. split.
  - apply after_epoch_eq; [|done]. unfold monitored.
    cbn [recorder values record_row]. rewrite last_snoc. cbn. by rewrite Hi.
  - cbn [run_epochs fst snd]. rewrite Hrb. reflexivity.
Qed.

End Streaks.

Section StreakRuns.
Context {Model : Type}.
Implicit Types (self : EarlyStoppingCallback.t) (learn : Learner Model).

(** X16: early stopping never fires while the monitored value keeps
    improving.  Over epochs each of which improves on the one before (the
    first on [best]), every hook is called and returns, nothing is printed,
    [wait] is 0 after the first of them and [best] is the last value. *)
Theorem keeps_going_while_improving (eps : list epoch_data) (vs : list float)
    (e : nat) self learn (b : float) (i : nat) (w : Z) :
  TrackerCallback.best (EarlyStoppingCallback.tracker self) = Some b ->
  TrackerCallback.idx (EarlyStoppingCallback.tracker self) = Some i ->
  EarlyStoppingCallback.wait self = Some w ->
  Forall2 (fun ep v => metrics ep !! i = Some v) eps vs ->
  improving (TrackerCallback.comp (EarlyStoppingCallback.tracker self))
            (TrackerCallback.min_delta (EarlyStoppingCallback.tracker self)) b vs = true ->
  let r := run_epochs e eps (self, learn) in
  raised (result r) = None
  /\ epoch_hooks (trace r) = seq e (length eps)
  /\ EarlyStoppingCallback.wait (state_of (result r)).1
     = Some (if eps is [] then w else 0%Z)
  /\ TrackerCallback.best (EarlyStoppingCallback.tracker (state_of (result r)).1)
     = Some (default b (last vs))
  /\ stdout (state_of (result r)).2 = stdout learn.
Proof.
  intros Hb Hi Hw Hrows. revert e self learn b w Hb Hi Hw.
  induction Hrows as [|ep v rest vs' Hv _ IH]; intros e self learn b w Hb Hi Hw Himp.
  - by cbn.
  - cbn [improving] in Himp. apply andb_true_iff in Himp as [Hcall Hrest].
    destruct (stopper_epoch e ep rest self learn b v i Hb Hi Hv)
      as (l1 & Hep & Hout & Htr & ->).
    rewrite Hcall in Htr.
    rewrite (stopper_improved _ _ _ Htr eq_refl).
    destruct (IH (S e)
                (EarlyStoppingCallback.set_wait 0
                   (EarlyStoppingCallback.set_tracker
                      (TrackerCallback.set_new_best true
                         (TrackerCallback.set_best v (EarlyStoppingCallback.tracker self)))
                      self))
                l1 v 0%Z eq_refl Hi eq_refl Hrest)
      as (Hr & Hhooks & Hwait & Hbest & Hstd).
    cbn [trace result]. split; [exact Hr |]. split; [|split; [|split]].
    + rewrite epoch_hooks_app, epoch_hooks_batches. cbn [app epoch_hooks length seq].
      by rewrite Hhooks.
    + rewrite Hwait. by destruct rest.
    + rewrite Hbest, (last_cons v vs'). by destruct (last vs').
    + by rewrite Hstd.
Qed.

(** X17: early stopping fires at the end of a streak, not before and not
    after.  When [patience] is [n + 1] more than [wait] and the next
    [n + 1] epochs do not improve on [best], the hook returns for the first
    [n] of them and raises the abort signal in the last: no later hook is
    called, [wait] has reached [patience], [best] is as it was, and the one
    line printed names the epoch before the streak. *)
Theorem stops_after_patience (n : nat) (eps : list epoch_data) (e : nat)
    self learn (b : float) (i : nat) (w : Z) :
  TrackerCallback.best (EarlyStoppingCallback.tracker self) = Some b ->
  TrackerCallback.idx (EarlyStoppingCallback.tracker self) = Some i ->
  EarlyStoppingCallback.wait self = Some w ->
  EarlyStoppingCallback.patience self = (w + Z.of_nat (S n))%Z ->
  S n <= length eps ->
  Forall (fun ep => exists v,
            metrics ep !! i = Some v
            /\ call (TrackerCallback.comp (EarlyStoppingCallback.tracker self))
                    (v - TrackerCallback.min_delta (EarlyStoppingCallback.tracker self))%float
                    b = false)
         (take (S n) eps) ->
  let r := run_epochs e eps (self, learn) in
  raised (result r) = Some CancelFitException
  /\ epoch_hooks (trace r) = seq e (S n)
  /\ EarlyStoppingCallback.wait (state_of (result r)).1
     = Some (EarlyStoppingCallback.patience self)
  /\ TrackerCallback.best (EarlyStoppingCallback.tracker (state_of (result r)).1)
     = Some b
  /\ stdout (state_of (result r)).2
     = (stdout learn ++
        [[Lit ("No improvement since epoch "
               +:+ str_int (Z.of_nat e - w - 1) +:+ ": early stopping")]])%list.
Proof.
  revert eps e self learn w.
  induction n as [|n IH]; intros eps e self learn w Hb Hi Hw Hp Hlen Hall.
  - destruct eps as [|ep rest]; [simpl in Hlen; lia |].
    cbn [take] in Hall. inversion Hall as [|? ? (v & Hv & Hcall) _]; subst.
    destruct (stopper_epoch e ep rest self learn b v i Hb Hi Hv)
      as (l1 & Hep & Hout & Htr & ->).
    rewrite Hcall in Htr.
    rewrite (stopper_waiting _ _ _ _ Htr eq_refl Hw). cbv zeta.
    rewrite (proj2 (Z.leb_le (EarlyStoppingCallback.patience self) (w + 1))) by lia.
    cbn [trace result raised state_of fst snd].
    split; [done |]. split; [|split; [|split]].
    + rewrite epoch_hooks_app, epoch_hooks_batches. done.
    + cbn. f_equal. lia.
    + done.
    + cbn [print stdout]. rewrite Hout. unfold EarlyStoppingCallback.message.
      rewrite Hep. by replace (Z.of_nat e - (w + 1))%Z with (Z.of_nat e - w - 1)%Z by lia.
  - destruct eps as [|ep rest]; [simpl in Hlen; lia |].
    rewrite firstn_cons in Hall.
    inversion Hall as [|? ? (v & Hv & Hcall) Hrest]; subst.
    destruct (stopper_epoch e ep rest self learn b v i Hb Hi Hv)
      as (l1 & Hep & Hout & Htr & ->).
    rewrite Hcall in Htr.
    rewrite (stopper_waiting _ _ _ _ Htr eq_refl Hw). cbv zeta.
    rewrite (proj2 (Z.leb_gt (EarlyStoppingCallback.patience self) (w + 1))) by lia.
    destruct (IH rest (S e)
                (EarlyStoppingCallback.set_wait (w + 1)
                   (EarlyStoppingCallback.set_tracker
                      (TrackerCallback.set_new_best false
                         (EarlyStoppingCallback.tracker self)) self))
                l1 (w + 1)%Z Hb Hi eq_refl)
      as (Hr & Hhooks & Hwait & Hbest & Hstd).
    { cbn. lia. }
    { simpl in Hlen. lia. }
    { exact Hrest. }
    cbn [trace result]. split; [exact Hr |]. split; [|split; [|split]].
    + rewrite epoch_hooks_app, epoch_hooks_batches. cbn [app epoch_hooks].
      rewrite Hhooks. reflexivity.
    + exact Hwait.
    + exact Hbest.
    + rewrite Hstd, Hout.
      by replace (Z.of_nat (S e) - (w + 1) - 1)%Z with (Z.of_nat e - w - 1)%Z by lia.
Qed.

End StreakRuns.

(** ** The further properties at work on the example learner *)

Lemma begin_fit_index_witness :
  exists i,
    TrackerCallback.idx Scenario.tracker0 = Some i
    /\ metric_names (recorder Example.learn) !! S i = Some "valid_loss".
Proof.
  destruct (begin_fit_index (TrackerCallback.__init__ "valid_loss" None 0.1)
              Example.learn Scenario.tracker0 eq_refl) as (i & Hi & Hname & _).
  exists i. split; [exact Hi | exact Hname].
Defined.

Lemma tracker_ready_witness :
  exists i val tr,
    TrackerCallback.idx Scenario.tracker0 = Some i
    /\ [2; 0.5]%float !! i = Some val
    /\ TrackerCallback.after_epoch Scenario.tracker0 Scenario.learn1 = Done tr.
Proof.
  destruct (tracker_ready (TrackerCallback.__init__ "valid_loss" None 0.1)
              Example.learn Scenario.tracker0 Scenario.learn1 [2; 0.5]%float
              eq_refl eq_refl) as (i & val & tr & Hi & Hval & Htr & _).
  { intros i [= <-]. simpl. lia. }
  exists i, val, tr. split; [exact Hi | split; [exact Hval | exact Htr]].
Defined.

Lemma default_tracker_strict_witness :
  TrackerCallback.new_best
    (state_of (TrackerCallback.after_epoch Fixture.tracker1 Scenario.learn2))
  = Some false.
Proof.
  exact (default_tracker_strict "valid_loss" Fixture.tracker1 Scenario.learn2
           0.5%float 0.5%float eq_refl eq_refl eq_refl).
Defined.

Lemma best_never_nan_witness :
  TrackerCallback.best (TrackerCallback.__init__ "valid_loss" None 0) = None
  /\ (exists b,
        TrackerCallback.best
          (state_of (TrackerCallback.begin_fit
                       (TrackerCallback.__init__ "valid_loss" None 0) Example.learn))
        = Some b /\ is_nan b = false)
  /\ (exists b, TrackerCallback.best Fixture.tracker1 = Some b /\ is_nan b = false)
  /\ is_nan nan = true
  /\ TrackerCallback.best
       (state_of (TrackerCallback.after_epoch Fixture.tracker1 Fixture.learn_nan))
     = Some 0.5%float
  /\ TrackerCallback.new_best
       (state_of (TrackerCallback.after_epoch Fixture.tracker1 Fixture.learn_nan))
     = Some false.
Proof.
  split; [reflexivity |].
  split.
  { exact (proj1 (best_never_nan (Model := nat)
                    (state_of (TrackerCallback.begin_fit
                                 (TrackerCallback.__init__ "valid_loss" None 0)
                                 Example.learn))
                    (or_introl eq_refl))
                 (tracked_begin nat _ Example.learn)). }
  destruct (best_never_nan (Model := nat) Fixture.tracker1 (or_introl eq_refl))
    as (Hnum & Hnan & _).
  split.
  { apply Hnum.
    exact (tracked_epoch nat _ Scenario.learn1
             (tracked_begin nat (TrackerCallback.__init__ "valid_loss" None 0)
                            Example.learn)). }
  split; [reflexivity |].
  exact (Hnan Fixture.learn_nan nan 0.5%float eq_refl eq_refl (or_introl eq_refl)).
Defined.

Lemma first_epoch_is_best_witness :
  is_finite 0.5 = true
  /\ TrackerCallback.new_best
       (state_of (TrackerCallback.after_epoch
                    (EarlyStoppingCallback.tracker Fixture.patient) Scenario.learn1))
     = Some true.
Proof.
  split; [reflexivity |].
  exact (proj1 (first_epoch_is_best "valid_loss"
                  (TrackerCallback.__init__ "valid_loss" None 0) Example.learn
                  (EarlyStoppingCallback.tracker Fixture.patient) Scenario.learn1
                  0.5%float eq_refl eq_refl eq_refl eq_refl)).
Defined.

Lemma operator_lt_never_improves_witness :
  TrackerCallback.new_best
    (state_of (TrackerCallback.after_epoch
       (state_of (TrackerCallback.begin_fit
                    (TrackerCallback.__init__ "valid_loss" (Some operator_lt) 0)
                    Example.learn))
       Scenario.learn1))
  = Some false.
Proof.
  exact (proj1 (operator_lt_never_improves
                  (TrackerCallback.__init__ "valid_loss" (Some operator_lt) 0)
                  Example.learn _ Scenario.learn1 0.5%float
                  eq_refl eq_refl eq_refl)).
Defined.

Lemma save_model_frame_witness :
  "model.pth" <> pth ("model" +:+ "_" +:+ str_int 0)
  /\ files (state_of (SaveModelCallback.after_epoch Fixture.saver Example.learn)).2
     !! "model.pth" = None.
Proof.
  assert (Hne : "model.pth" <> pth ("model" +:+ "_" +:+ str_int 0)).
  { apply (bool_decide_unpack _). vm_compute. exact I. }
  split; [exact Hne |].
  exact (proj1 (save_model_frame Fixture.saver Example.learn "model.pth" Hne)).
Defined.

Lemma every_epoch_keeps_all_witness :
  exists learn',
    result (run_epochs 0 (Example.epochs [0.5; 0.4]%float) (Fixture.saver, Example.learn))
    = Done (Fixture.saver, learn')
    /\ files learn' !! "model_0.pth" = Some 1
    /\ files learn' !! "model_1.pth" = Some 2.
Proof.
  destruct (every_epoch_keeps_all (Example.epochs [0.5; 0.4]%float) 0
              Fixture.saver Example.learn eq_refl) as (learn' & Hr & Hkeep & _).
  exists learn'. split; [exact Hr |]. split.
  - exact (Hkeep 0 _ eq_refl).
  - exact (Hkeep 1 _ eq_refl).
Defined.

Lemma first_bad_loss_aborts_witness :
  result (run_batches 0 0 [1; 2; nan; 3]%float (tt, Example.learn))
  = Raised CancelFitException (tt, set_loss nan Example.learn)
  /\ trace (run_batches 0 0 [1; 2; nan; 3]%float (tt, Example.learn))
     = [AfterBatch 0 0; AfterBatch 0 1; AfterBatch 0 2].
Proof.
  assert (Hgood : Forall (fun y => TerminateOnNaNCallback.isinf y
                                   || TerminateOnNaNCallback.isnan y = false)
                         [1; 2]%float).
  { repeat constructor. }
  destruct (first_bad_loss_aborts 0 0 [1; 2]%float [3]%float nan tt Example.learn Hgood)
    as [_ Hbad].
  exact (Hbad eq_refl).
Defined.

Lemma wait_within_patience_witness :
  exists w',
    EarlyStoppingCallback.wait
      (state_of (result (run_epochs 1 (Example.epochs [0.6]%float)
                           (Fixture.patient1, Scenario.learn1)))).1 = Some w'
    /\ (w' = 0 \/ 0 < w' < 2)%Z.
Proof.
  destruct (wait_within_patience (Example.epochs [0.6]%float) 1
              Fixture.patient1 Scenario.learn1 0%Z eq_refl (or_introl eq_refl))
    as (w' & Hw & _ & Hdone & _).
  exists w'. split; [exact Hw | exact (Hdone eq_refl)].
Defined.

Lemma reduce_lr_missing_lr_witness :
  raised (ReduceLROnPlateau.after_epoch Scenario.reducer1 Fixture.learn_no_lr)
  = Some (KeyError "lr")
  /\ ReduceLROnPlateau.wait
       (state_of (ReduceLROnPlateau.after_epoch Scenario.reducer1 Fixture.learn_no_lr)).1
     = Some 1%Z.
Proof.
  assert (Htr : TrackerCallback.after_epoch
                  (ReduceLROnPlateau.tracker Scenario.reducer1) Fixture.learn_no_lr
                = Done (TrackerCallback.mk "valid_loss" np_less (-0)%float
                          (Some 0.5%float) (Some false) (Some 1)))
    by reflexivity.
  assert (Hall : Forall (fun g : gmap string float => is_Some (g !! "lr"))
                        [ {[ "lr" := 0.1%float ]} ]).
  { repeat constructor; by eexists. }
  destruct (reduce_lr_missing_lr Scenario.reducer1 Fixture.learn_no_lr _ 0%Z
              [ {[ "lr" := 0.1%float ]} ] [] {[ "mom" := 0.9%float ]}
              Htr eq_refl eq_refl ltac:(vm_compute; discriminate) eq_refl eq_refl
              Hall eq_refl) as (Hraised & Hwait & _).
  split; [exact Hraised | exact Hwait].
Defined.

Lemma reduce_lr_never_stops_witness :
  raised (result (run_epochs 1 (Example.epochs [0.5; 0.5]%float)
                    (Scenario.reducer1, Scenario.learn1))) = None
  /\ length (hypers (state_of (result (run_epochs 1 (Example.epochs [0.5; 0.5]%float)
                                         (Scenario.reducer1, Scenario.learn1)))).2) = 2.
Proof.
  assert (Hrows : Forall (fun ep : epoch_data => is_Some (metrics ep !! 1))
                         (Example.epochs [0.5; 0.5]%float)).
  { repeat constructor; by eexists. }
  assert (Hall : Forall (fun h : gmap string float => is_Some (h !! "lr"))
                        (hypers Scenario.learn1)).
  { repeat constructor; by eexists. }
  destruct (reduce_lr_never_stops (Example.epochs [0.5; 0.5]%float) 1
              Scenario.reducer1 Scenario.learn1 0.5%float 1 0%Z
              eq_refl eq_refl eq_refl Hrows eq_refl Hall ltac:(discriminate))
    as (Hr & _ & Hlen & _).
  split; [exact Hr | exact Hlen].
Defined.

Lemma failed_update_changes_nothing_witness :
  raised (TrackerCallback.after_epoch Scenario.tracker0 Example.learn) = Some IndexError
  /\ state_of (TrackerCallback.after_epoch Scenario.tracker0 Example.learn)
     = Scenario.tracker0.
Proof.
  split; [reflexivity |].
  exact (proj1 (failed_update_changes_nothing Scenario.tracker0 Example.learn
                  IndexError eq_refl)).
Defined.


Lemma keeps_going_while_improving_witness :
  raised (result (run_epochs 0 (Example.epochs [0.5; 0.4; 0.3]%float)
                    (Fixture.patient, Example.learn))) = None
  /\ epoch_hooks (trace (run_epochs 0 (Example.epochs [0.5; 0.4; 0.3]%float)
                           (Fixture.patient, Example.learn))) = [0; 1; 2].
Proof.
  assert (Hrows : Forall2 (fun (ep : epoch_data) v => metrics ep !! 1 = Some v)
                          (Example.epochs [0.5; 0.4; 0.3]%float)
                          [0.5; 0.4; 0.3]%float).
  { repeat constructor. }
  destruct (keeps_going_while_improving (Example.epochs [0.5; 0.4; 0.3]%float)
              [0.5; 0.4; 0.3]%float 0 Fixture.patient Example.learn infinity 1 0%Z
              eq_refl eq_refl eq_refl Hrows eq_refl) as (Hr & Hhooks & _).
  split; [exact Hr | exact Hhooks].
Defined.

Lemma stops_after_patience_witness :
  raised (result (run_epochs 1 (Example.epochs [0.6; 0.7; 0.1]%float)
                    (Fixture.patient1, Scenario.learn1))) = Some CancelFitException
  /\ epoch_hooks (trace (run_epochs 1 (Example.epochs [0.6; 0.7; 0.1]%float)
                           (Fixture.patient1, Scenario.learn1))) = [1; 2]
  /\ stdout (state_of (result (run_epochs 1 (Example.epochs [0.6; 0.7; 0.1]%float)
                                 (Fixture.patient1, Scenario.learn1)))).2
     = [[Lit "No improvement since epoch 0: early stopping"]].
Proof.
  assert (Hall : Forall (fun ep : epoch_data => exists v,
                    metrics ep !! 1 = Some v
                    /\ call (TrackerCallback.comp
                               (EarlyStoppingCallback.tracker Fixture.patient1))
                            (v - TrackerCallback.min_delta
                                   (EarlyStoppingCallback.tracker Fixture.patient1))%float
                            0.5%float = false)
                        (take 2 (Example.epochs [0.6; 0.7; 0.1]%float))).
  { repeat constructor; eexists; split; reflexivity. }
  destruct (stops_after_patience 1 (Example.epochs [0.6; 0.7; 0.1]%float) 1
              Fixture.patient1 Scenario.learn1 0.5%float 1 0%Z
              eq_refl eq_refl eq_refl eq_refl ltac:(simpl; lia) Hall)
    as (Hr & Hhooks & _ & _ & Hout).
  split; [exact Hr | split; [exact Hhooks | exact Hout]].
Defined.
